(** * indi-rpicam: the MMAL camera component ([mmalcamera.cpp])

    A shallow embedding of [MMALCamera], the class that drives the
    Raspberry Pi camera through the vendor's MMAL layer.  The vendor
    functions are an interface ([MMAL]); every method of the class is a
    computation that calls it, may throw an [MMALException], and leaves a
    trace of the calls it made and of the lines it printed on [stderr]. *)

From Stdlib Require Import ZArith List String Ascii Bool Lia.
From Stdlib Require Import QArith Qround Qpower.
From Stdlib Require Import SpecFloat.
Import ListNotations.

#[local] Open Scope Z_scope.

(** ** Vendor data types *)

Definition MMAL_STATUS_T := Z.
Definition MMAL_SUCCESS : MMAL_STATUS_T := 0.

Record MMAL_RATIONAL_T := { num : Z; den : Z }.

(** The two [MMAL_COMPONENT_T] handles the class holds: its own component
    ([MMAL_COMPONENT_DEFAULT_CAMERA]) and the transient one of
    [get_sensor_info] ([MMAL_COMPONENT_DEFAULT_CAMERA_INFO]). *)
Inductive Component := camera | camera_info.

(** [component->control], [component->output[i]] and [component->port[i]]. *)
Inductive Port :=
| control (c : Component)
| output (c : Component) (i : nat)
| port (c : Component) (i : nat).

Definition MMAL_CAMERA_PREVIEW_PORT : nat := 0.
Definition MMAL_CAMERA_VIDEO_PORT : nat := 1.
Definition MMAL_CAMERA_CAPTURE_PORT : nat := 2.

(** [MMAL_FOURCC(a,b,c,d)]: the four characters packed little-endian into
    a 32-bit tag. *)
Definition MMAL_FOURCC (a b c d : ascii) : Z :=
  Z.lor (Z.of_nat (nat_of_ascii a))
    (Z.lor (Z.shiftl (Z.of_nat (nat_of_ascii b)) 8)
       (Z.lor (Z.shiftl (Z.of_nat (nat_of_ascii c)) 16)
              (Z.shiftl (Z.of_nat (nat_of_ascii d)) 24))).

Definition MMAL_ENCODING_OPAQUE : Z := MMAL_FOURCC "O" "P" "Q" "V".
Definition MMAL_ENCODING_RGB24 : Z := MMAL_FOURCC "R" "G" "B" "3".
Definition MMAL_ENCODING_BGR24 : Z := MMAL_FOURCC "B" "G" "R" "3".

(** The fields of [MMAL_ES_FORMAT_T] (and of its [es->video] part) that
    [set_capture_port_format] writes. *)
Record MMAL_ES_FORMAT_T := {
  encoding : Z;
  encoding_variant : Z;
  video_width : Z;
  video_height : Z;
  crop_x : Z;
  crop_y : Z;
  crop_width : Z;
  crop_height : Z;
  frame_rate : MMAL_RATIONAL_T;
  par : MMAL_RATIONAL_T
}.

Inductive TimestampMode := MMAL_PARAM_TIMESTAMP_MODE_RESET_STC.

Record MMAL_PARAMETER_CAMERA_CONFIG_T := {
  max_stills_w : Z;
  max_stills_h : Z;
  stills_yuv422 : Z;
  one_shot_stills : Z;
  max_preview_video_w : Z;
  max_preview_video_h : Z;
  num_preview_video_frames : Z;
  stills_capture_circular_buffer_height : Z;
  fast_preview_resume : Z;
  use_stc_timestamp : TimestampMode
}.

(** One entry of [MMAL_PARAMETER_CAMERA_INFO_T::cameras]; [camera_name] is
    the [char] array holding the name. *)
Record MMAL_PARAMETER_CAMERA_INFO_CAMERA_T := {
  max_width : Z;
  max_height : Z;
  camera_name : list ascii
}.

Record MMAL_PARAMETER_CAMERA_INFO_T := {
  num_cameras : Z;
  cameras : list MMAL_PARAMETER_CAMERA_INFO_CAMERA_T
}.

Inductive ParamId :=
| MMAL_PARAMETER_CAMERA_NUM
| MMAL_PARAMETER_CAMERA_CUSTOM_SENSOR_CONFIG
| MMAL_PARAMETER_CAMERA_CONFIG
| MMAL_PARAMETER_CAMERA_INFO
| MMAL_PARAMETER_FPS_RANGE
| MMAL_PARAMETER_CAPTURE
| MMAL_PARAMETER_AWB_MODE
| MMAL_PARAMETER_SATURATION
| MMAL_PARAMETER_DIGITAL_GAIN
| MMAL_PARAMETER_ISO
| MMAL_PARAMETER_BRIGHTNESS
| MMAL_PARAMETER_EXPOSURE_MODE
| MMAL_PARAMETER_INPUT_CROP
| MMAL_PARAMETER_ZERO_COPY
| MMAL_PARAMETER_ENABLE_RAW_CAPTURE
| MMAL_PARAMETER_CAPTURE_STATS_PASS
| MMAL_PARAMETER_SHUTTER_SPEED
| MMAL_PARAMETER_ANALOG_GAIN.

Inductive AwbMode := MMAL_PARAM_AWBMODE_AUTO.
Inductive ExposureMode := MMAL_PARAM_EXPOSUREMODE_OFF.

(** The parameter structures that travel through
    [mmal_port_parameter_set] and [mmal_port_parameter_get].  [PHeader k]
    is a structure of which only the header is filled in, its [hdr.size]
    being [k] bytes short of the structure's size. *)
Inductive Param :=
| PInt32 (v : Z)
| PUint32 (v : Z)
| PBoolean (v : Z)
| PRational (v : MMAL_RATIONAL_T)
| PAwbMode (v : AwbMode)
| PExposureMode (v : ExposureMode)
| PInputCrop (x y w h : Z)
| PCameraConfig (v : MMAL_PARAMETER_CAMERA_CONFIG_T)
| PFpsRange (lo hi : MMAL_RATIONAL_T)
| PCameraInfo (v : MMAL_PARAMETER_CAMERA_INFO_T)
| PHeader (short_by : Z).

(** ** The vendor interface *)

Inductive MMALCall :=
| mmal_component_create (c : Component)
| mmal_component_destroy (c : Component)
| mmal_component_enable (c : Component)
| mmal_component_disable (c : Component)
| mmal_port_enable (p : Port)
| mmal_port_disable (p : Port)
| mmal_port_parameter_set (p : Port) (id : ParamId) (v : Param)
| mmal_port_parameter_get (p : Port) (id : ParamId) (v : Param)
| mmal_port_format_commit (p : Port) (fmt : MMAL_ES_FORMAT_T)
| mmal_util_rgb_order_fixed (p : Port)
| store_buffer_size (p : Port) (v : Z).

Definition mmal_port_parameter_set_uint32 (p : Port) (id : ParamId) (v : Z) :=
  mmal_port_parameter_set p id (PUint32 v).
Definition mmal_port_parameter_set_boolean (p : Port) (id : ParamId) (v : Z) :=
  mmal_port_parameter_set p id (PBoolean v).
Definition mmal_port_parameter_set_rational (p : Port) (id : ParamId)
  (v : MMAL_RATIONAL_T) :=
  mmal_port_parameter_set p id (PRational v).
Definition mmal_port_parameter_get_uint32 (p : Port) (id : ParamId) :=
  mmal_port_parameter_get p id (PHeader 0).

Definition MMAL_TRUE : Z := 1.

(** What a call gives back: its integer return value (an [MMAL_STATUS_T],
    or the [MMAL_BOOL_T] of [mmal_util_rgb_order_fixed]) and, for a [get],
    the structure as the vendor filled it in. *)
Record Response := { ret_val : Z; filled : option Param }.

(** The vendor layer: a state of its own, stepped by every call, and the
    fields of its structures that the class reads directly. *)
Class MMAL (HW : Type) := {
  mmal_call : HW -> MMALCall -> HW * Response;
  is_enabled : HW -> Port -> bool;
  output_num : HW -> Component -> Z;
  buffer_size_recommended : HW -> Port -> Z;
  format : HW -> Port -> MMAL_ES_FORMAT_T
}.

(** ** The class and its effects *)

(** The [fprintf(stderr, ...)] lines, by their arguments. *)
Inductive Diag :=
| msg_default_fps (lo hi : MMAL_RATIONAL_T)
| msg_starting_capture (speed : Z)
| msg_capture_aborted
| msg_iso (v : Z)
| msg_shutter_mismatch (requested actual : Z)
| msg_setting_fps (lo hi : MMAL_RATIONAL_T)
| msg_fps_mismatch (lo hi : MMAL_RATIONAL_T)
| msg_gain (n d : Z).

Inductive Event :=
| Call (c : MMALCall) (r : Response)
| Stderr (d : Diag).

(** How a method ends: it returns, it throws an [MMALException] carrying
    its text, it has used an indeterminate value, or an exception carrying
    that text has tried to leave a function that does not let exceptions
    out, and [std::terminate] has ended the program. *)
Inductive Outcome (A : Type) :=
| Returned (a : A)
| Thrown (what : string)
| Undefined
| Terminated (what : string).
Arguments Returned {A} a.
Arguments Thrown {A} what.
Arguments Undefined {A}.
Arguments Terminated {A} what.

(** The members of [MMALCamera] that [mmalcamera.cpp] reads and writes.
    [shutter_speed] is what [mmal_port_parameter_set_uint32] is given and
    what the [uint32_t] read back is compared with, [width] and [height]
    hold the [uint32_t] sizes of the sensor: 32-bit unsigned values.
    [cameraNum] is a 32-bit signed integer, [cameraName] a [char] buffer
    and [gain] a binary64 [double]. *)
Record MMALCamera := {
  cameraNum : Z;
  cameraName : list ascii;
  shutter_speed : Z;
  iso : Z;
  gain : spec_float;
  width : Z;
  height : Z;
  fps_low : MMAL_RATIONAL_T;
  fps_high : MMAL_RATIONAL_T
}.

Definition set_cameraNum (n : Z) (c : MMALCamera) : MMALCamera :=
  {| cameraNum := n; cameraName := cameraName c;
     shutter_speed := shutter_speed c; iso := iso c; gain := gain c;
     width := width c; height := height c;
     fps_low := fps_low c; fps_high := fps_high c |}.

Definition set_cameraName (s : list ascii) (c : MMALCamera) : MMALCamera :=
  {| cameraNum := cameraNum c; cameraName := s;
     shutter_speed := shutter_speed c; iso := iso c; gain := gain c;
     width := width c; height := height c;
     fps_low := fps_low c; fps_high := fps_high c |}.

Definition set_size (w h : Z) (c : MMALCamera) : MMALCamera :=
  {| cameraNum := cameraNum c; cameraName := cameraName c;
     shutter_speed := shutter_speed c; iso := iso c; gain := gain c;
     width := w; height := h;
     fps_low := fps_low c; fps_high := fps_high c |}.

Definition set_fps (lo hi : MMAL_RATIONAL_T) (c : MMALCamera) : MMALCamera :=
  {| cameraNum := cameraNum c; cameraName := cameraName c;
     shutter_speed := shutter_speed c; iso := iso c; gain := gain c;
     width := width c; height := height c;
     fps_low := lo; fps_high := hi |}.

(** *** 32-bit arithmetic *)

Definition uint32 (z : Z) : Z := z mod 2 ^ 32.
Definition int32 (z : Z) : Z := (z + 2 ^ 31) mod 2 ^ 32 - 2 ^ 31.

(** *** C strings in fixed buffers *)

Definition NUL : ascii := "000"%char.

(** [strncpy(dst, src, n)]: [n] bytes are written, the characters of [src]
    up to its terminator and then padding.  A [src] that ends without a
    [NUL] stands for a string whose terminator follows it. *)
Fixpoint strncpy (src : list ascii) (n : nat) : list ascii :=
  match n with
  | O => []
  | S n' =>
      match src with
      | [] => NUL :: strncpy [] n'
      | c :: src' =>
          if Ascii.eqb c NUL then NUL :: strncpy [] n'
          else c :: strncpy src' n'
      end
  end.

(** [buf[sizeof buf - 1] = 0]. *)
Definition terminate (buf : list ascii) : list ascii :=
  match buf with
  | [] => []
  | _ => removelast buf ++ [NUL]
  end.

(** The string a [char] buffer holds: what precedes the first [NUL]. *)
Fixpoint c_str (buf : list ascii) : list ascii :=
  match buf with
  | [] => []
  | c :: buf' => if Ascii.eqb c NUL then [] else c :: c_str buf'
  end.

(** *** binary64 *)

Definition prec : Z := 53.
Definition emax : Z := 1024.

Definition double_mul : spec_float -> spec_float -> spec_float :=
  SFmul prec emax.

(** The [double] 65536.0, to which the [int] literal converts. *)
Definition double_65536 : spec_float := S754_finite false (2 ^ 52) (-36).

(** [static_cast<int32_t>(x)] on a [double]: the fraction is dropped; a
    value that does not fit, an infinity and a NaN have no defined
    result. *)
Definition double_to_int32 (x : spec_float) : option Z :=
  match x with
  | S754_zero _ => Some 0
  | S754_finite s m e =>
      let t := if 0 <=? e then Zpos m * 2 ^ e else Zpos m / 2 ^ (- e) in
      let v := if s then - t else t in
      if (- 2 ^ 31 <=? v) && (v <? 2 ^ 31) then Some v else None
  | _ => None
  end.

(** ** The methods of [MMALCamera] *)

Section Methods.

Context {HW : Type} `{MMAL HW}.

(** [USE_ISO] is the preprocessor switch of [set_camera_parameters];
    [cameraName_size] is [sizeof cameraName], fixed by the class
    declaration. *)
Variable USE_ISO : bool.
Variable cameraName_size : nat.

(** A method runs against the vendor layer and yields how it ended, the
    vendor state it left, and what it did on the way. *)
Definition M (A : Type) : Type := HW -> Outcome A * HW * list Event.

Definition ret {A : Type} (a : A) : M A := fun h => (Returned a, h, []).

Definition bind {A B : Type} (m : M A) (k : A -> M B) : M B :=
  fun h =>
    match m h with
    | (Returned a, h1, t1) =>
        match k a h1 with
        | (o, h2, t2) => (o, h2, t1 ++ t2)
        end
    | (Thrown what, h1, t1) => (Thrown what, h1, t1)
    | (Undefined, h1, t1) => (Undefined, h1, t1)
    | (Terminated what, h1, t1) => (Terminated what, h1, t1)
    end.

Definition throw {A : Type} (what : string) : M A :=
  fun h => (Thrown what, h, []).

Definition undefined {A : Type} : M A := fun h => (Undefined, h, []).

(** A function that is [noexcept]: an exception that would leave it calls
    [std::terminate] instead, and nothing runs after that. *)
Definition noexcept {A : Type} (m : M A) : M A :=
  fun h =>
    match m h with
    | (Thrown what, h1, t1) => (Terminated what, h1, t1)
    | x => x
    end.

Definition call (c : MMALCall) : M Response :=
  fun h => match mmal_call h c with
           | (h', r) => (Returned r, h', [Call c r])
           end.

Definition read {A : Type} (f : HW -> A) : M A :=
  fun h => (Returned (f h), h, []).

Definition fprintf_stderr (d : Diag) : M unit :=
  fun h => (Returned tt, h, [Stderr d]).

(** A value that is only determinate when present. *)
Definition determinate {A : Type} (o : option A) : M A :=
  match o with
  | Some a => ret a
  | None => undefined
  end.

Definition outcome {A : Type} (x : Outcome A * HW * list Event) : Outcome A :=
  fst (fst x).
Definition final {A : Type} (x : Outcome A * HW * list Event) : HW :=
  snd (fst x).
Definition trace {A : Type} (x : Outcome A * HW * list Event) : list Event :=
  snd x.

Notation "x <- m ;; k" := (bind m (fun x => k))
  (at level 61, m at next level, right associativity).
Notation "m ;; k" := (bind m (fun _ => k))
  (at level 61, right associativity).

(** Modelled from the spec: [MMALException::throw_if] is defined in
    [mmalexception.cpp], outside the sources at hand; by the spec every
    failing call raises an error carrying the description of the failing
    step, so a true condition throws the text and a false one does
    nothing. *)
Definition throw_if (cond : bool) (text : string) : M unit :=
  if cond then throw text else ret tt.

(** An [MMAL_STATUS_T] (or an [MMAL_BOOL_T]) used as a condition. *)
Definition nonzero (r : Response) : bool := negb (ret_val r =? 0).

(** Modelled from the spec: the base class [MMALComponent], defined in
    [mmalcomponent.cpp], outside the sources at hand; by the spec the
    resource owns a component handle that is created first, and creation
    failure aborts construction. *)
Definition MMALComponent_ctor (c : Component) : M unit :=
  r <- call (mmal_component_create c);;
  throw_if (nonzero r) "Failed to create component".

(** Modelled from the spec: [MMALComponent::enable_port_with_callback],
    defined in [mmalcomponent.cpp], outside the sources at hand; by the
    spec it enables the port with a callback sink and a failure is an
    error. *)
Definition enable_port_with_callback (p : Port) : M unit :=
  r <- call (mmal_port_enable p);;
  throw_if (nonzero r) "Failed to enable port".

Definition camera_info_of (o : option Param) : option MMAL_PARAMETER_CAMERA_INFO_T :=
  match o with
  | Some (PCameraInfo v) => Some v
  | _ => None
  end.

Definition uint32_of (o : option Param) : option Z :=
  match o with
  | Some (PUint32 v) => Some v
  | _ => None
  end.

(** An in/out structure after a [get]: what the vendor wrote, or what it
    held before. *)
Definition fps_range_of (o : option Param) (lo hi : MMAL_RATIONAL_T) :
  MMAL_RATIONAL_T * MMAL_RATIONAL_T :=
  match o with
  | Some (PFpsRange lo' hi') => (lo', hi')
  | _ => (lo, hi)
  end.

(** [param.cameras[cameraNum]] *)
Definition cameras_at (param : MMAL_PARAMETER_CAMERA_INFO_T) (n : Z) :
  option MMAL_PARAMETER_CAMERA_INFO_CAMERA_T :=
  if n <? 0 then None else nth_error (cameras param) (Z.to_nat n).

Definition OV5647 : list ascii := list_ascii_of_string "OV5647".

(** [MMALCamera::get_sensor_info()].  The status of the creation of the
    probe is overwritten unchecked, so the handle is determinate only if
    the creation succeeded.  The first query, deliberately undersized, is
    put to the camera's own control port; only when it is refused is the
    probe queried. *)
Definition get_sensor_info (this : MMALCamera) : M MMALCamera :=
  r <- call (mmal_component_create camera_info);;
  let camera_info_handle :=
    if nonzero r then None else Some camera_info in
  let this := set_cameraName (strncpy OV5647 cameraName_size) this in
  r <- call (mmal_port_parameter_get (control camera)
               MMAL_PARAMETER_CAMERA_INFO (PHeader 4));;
  this <-
    (if nonzero r then
       info <- determinate camera_info_handle;;
       r <- call (mmal_port_parameter_get (control info)
                    MMAL_PARAMETER_CAMERA_INFO (PHeader 0));;
       throw_if (nonzero r) "Failed to get camera parameters.";;
       param <- determinate (camera_info_of (filled r));;
       throw_if (num_cameras param <=? uint32 (cameraNum this))
         "Camera number not found.";;
       cam <- determinate (cameras_at param (cameraNum this));;
       ret (set_cameraName
              (terminate (strncpy (camera_name cam) cameraName_size))
              (set_size (max_width cam) (max_height cam) this))
     else
       ret (set_size 2592 1944 this));;
  info <- determinate camera_info_handle;;
  call (mmal_component_destroy info);;
  ret this.

(** [format->encoding = e; format->encoding_variant = v]. *)
Definition set_encoding (e v : Z) (fmt : MMAL_ES_FORMAT_T) : MMAL_ES_FORMAT_T :=
  {| encoding := e; encoding_variant := v;
     video_width := video_width fmt; video_height := video_height fmt;
     crop_x := crop_x fmt; crop_y := crop_y fmt;
     crop_width := crop_width fmt; crop_height := crop_height fmt;
     frame_rate := frame_rate fmt; par := par fmt |}.

(** The byte-order compensation of [set_capture_port_format], on the
    encoding the format holds when the test runs. *)
Definition rgb_order_compensate (fixed : bool) (enc : Z) : Z :=
  if negb fixed then
    if enc =? MMAL_ENCODING_RGB24 then MMAL_ENCODING_BGR24
    else if enc =? MMAL_ENCODING_BGR24 then MMAL_ENCODING_RGB24
    else enc
  else enc.

(** [MMALCamera::set_capture_port_format()], on the format structure of
    the capture port. *)
Definition set_capture_port_format (this : MMALCamera) : M unit :=
  fmt <- read (fun h => format h (output camera MMAL_CAMERA_CAPTURE_PORT));;
  (* Special case for raw format. *)
  let fmt := set_encoding MMAL_ENCODING_OPAQUE 0 fmt in
  r <- call (mmal_util_rgb_order_fixed (output camera MMAL_CAMERA_CAPTURE_PORT));;
  let fmt :=
    set_encoding (rgb_order_compensate (nonzero r) (encoding fmt))
      (encoding_variant fmt) fmt in
  let fmt :=
    {| encoding := encoding fmt;
       encoding_variant := 0;
       video_width := width this;
       video_height := height this;
       crop_x := 0;
       crop_y := 0;
       crop_width := int32 (width this);
       crop_height := int32 (height this);
       frame_rate := {| num := 0; den := 1 |};
       par := {| num := 1; den := 1 |} |} in
  r <- call (mmal_port_format_commit (output camera MMAL_CAMERA_CAPTURE_PORT) fmt);;
  throw_if (nonzero r) "camera capture port format couldn't be set".

(** [MMALCamera::MMALCamera(int n)], from the members' default values. *)
Definition MMALCamera_ctor (init : MMALCamera) (n : Z) : M MMALCamera :=
  MMALComponent_ctor camera;;
  let this := set_cameraNum n init in
  r <- call (mmal_port_parameter_set (control camera)
               MMAL_PARAMETER_CAMERA_NUM (PInt32 (cameraNum this)));;
  throw_if (nonzero r) "Could not select camera";;
  outputs <- read (fun h => output_num h camera);;
  throw_if (outputs =? 0) "Camera doesn't have output ports";;
  r <- call (mmal_port_parameter_set_uint32 (control camera)
               MMAL_PARAMETER_CAMERA_CUSTOM_SENSOR_CONFIG 0);;
  throw_if (nonzero r) "Could not set sensor mode";;
  enable_port_with_callback (control camera);;
  this <- get_sensor_info this;;
  let cam_config :=
    {| max_stills_w := width this;
       max_stills_h := height this;
       stills_yuv422 := 0;
       one_shot_stills := 1;
       max_preview_video_w := 1024;
       max_preview_video_h := 768;
       num_preview_video_frames := 1;
       stills_capture_circular_buffer_height := 0;
       fast_preview_resume := 0;
       use_stc_timestamp := MMAL_PARAM_TIMESTAMP_MODE_RESET_STC |} in
  r <- call (mmal_port_parameter_set (control camera)
               MMAL_PARAMETER_CAMERA_CONFIG (PCameraConfig cam_config));;
  throw_if (nonzero r) "Failed to set camera config";;
  set_capture_port_format this;;
  let zero := {| num := 0; den := 0 |} in
  r <- call (mmal_port_parameter_get (output camera MMAL_CAMERA_CAPTURE_PORT)
               MMAL_PARAMETER_FPS_RANGE (PFpsRange zero zero));;
  throw_if (nonzero r) "Failed to get FPS range";;
  let fps_range := fps_range_of (filled r) zero zero in
  let this := set_fps (fst fps_range) (snd fps_range) this in
  fprintf_stderr (msg_default_fps (fps_low this) (fps_high this));;
  ret this.

(** [MMALCamera::~MMALCamera()].  The destructor is written without an
    exception specification, and since C++11 such a destructor is
    [noexcept] by the language's default: an exception that leaves
    [throw_if] ends the destructor there and, on its way out of the
    destructor, ends the program in [std::terminate].  (The class
    declaration and the destructor of the base class, which runs next when
    this one returns, are not in [mmalcamera.cpp].) *)
Definition MMALCamera_dtor : M unit :=
  noexcept
    (enabled <- read (fun h => is_enabled h (output camera MMAL_CAMERA_CAPTURE_PORT));;
     (if enabled : bool then
        r <- call (mmal_port_disable (output camera MMAL_CAMERA_CAPTURE_PORT));;
        throw_if (nonzero r) "Failed to disable capture port"
      else ret tt);;
     enabled <- read (fun h => is_enabled h (control camera));;
     (if enabled : bool then
        r <- call (mmal_port_disable (control camera));;
        throw_if (nonzero r) "Failed to disable control port"
      else ret tt)).

(** [MMALCamera::capture()] *)
Definition capture (this : MMALCamera) : M Z :=
  let exit_code := 0 in
  r <- call (mmal_component_enable camera);;
  throw_if (nonzero r) "camera component couldn't be enabled";;
  fprintf_stderr (msg_starting_capture (shutter_speed this));;
  r <- call (mmal_port_parameter_set_boolean
               (output camera MMAL_CAMERA_CAPTURE_PORT) MMAL_PARAMETER_CAPTURE 1);;
  throw_if (nonzero r) "Failed to start capture";;
  ret exit_code.

(** [MMALCamera::abort()] *)
Definition abort : M unit :=
  r <- call (mmal_port_parameter_set_boolean
               (output camera MMAL_CAMERA_CAPTURE_PORT) MMAL_PARAMETER_CAPTURE 0);;
  throw_if (nonzero r) "Failed to abort capture";;
  r <- call (mmal_component_disable camera);;
  throw_if (nonzero r) "camera component couldn't be disabled";;
  fprintf_stderr msg_capture_aborted.

(** [MMALCamera::get_shutter_speed()]; a successful [get] that left the
    value unwritten returns an indeterminate one. *)
Definition get_shutter_speed : M Z :=
  r <- call (mmal_port_parameter_get_uint32 (control camera)
               MMAL_PARAMETER_SHUTTER_SPEED);;
  throw_if (nonzero r) "Failed to get shutter speed";;
  determinate (uint32_of (filled r)).

(** The test on the read-back shutter speed,
    [actual < shutter_speed - 100000 || actual > shutter_speed + 100000]:
    the comparisons are between 32-bit unsigned values, and the two bounds
    are computed in that arithmetic. *)
Definition shutter_speed_differs (requested actual : Z) : bool :=
  (actual <? uint32 (requested - 100000))
  || (actual >? uint32 (requested + 100000)).

(** The exposure ranges: [low] and [high] by shutter speed. *)
Definition exposure_range (this : MMALCamera) :
  MMAL_RATIONAL_T * MMAL_RATIONAL_T :=
  if shutter_speed this >? 6000000 then
    ({| num := 5; den := 1000 |}, {| num := 166; den := 1000 |})
  else if shutter_speed this >? 1000000 then
    ({| num := 167; den := 1000 |}, {| num := 999; den := 1000 |})
  else
    (fps_low this, fps_high this).

Definition rational_differs (a b : MMAL_RATIONAL_T) : bool :=
  negb (num a =? num b) || negb (den a =? den b).

(** [MMALCamera::set_camera_parameters()].  The assignment to
    [buffer_size] is a store into the vendor's port structure. *)
Definition set_camera_parameters (this : MMALCamera) : M unit :=
  r <- call (mmal_port_parameter_set (control camera)
               MMAL_PARAMETER_AWB_MODE (PAwbMode MMAL_PARAM_AWBMODE_AUTO));;
  throw_if (nonzero r) "Failed to set AWB mode";;
  r <- call (mmal_port_parameter_set_rational (control camera)
               MMAL_PARAMETER_SATURATION {| num := 10; den := 0 |});;
  throw_if (nonzero r) "Failed to set saturation";;
  r <- call (mmal_port_parameter_set_rational (control camera)
               MMAL_PARAMETER_DIGITAL_GAIN {| num := 1; den := 1 |});;
  throw_if (nonzero r) "Failed to set digital gain";;
  (if USE_ISO then
     r <- call (mmal_port_parameter_set_uint32 (control camera)
                  MMAL_PARAMETER_ISO (iso this));;
     throw_if (nonzero r) "Failed to set ISO";;
     fprintf_stderr (msg_iso (iso this))
   else ret tt);;
  r <- call (mmal_port_parameter_set_rational (control camera)
               MMAL_PARAMETER_BRIGHTNESS {| num := 50; den := 100 |});;
  throw_if (nonzero r) "Failed to set brightness";;
  r <- call (mmal_port_parameter_set (control camera)
               MMAL_PARAMETER_EXPOSURE_MODE
               (PExposureMode MMAL_PARAM_EXPOSUREMODE_OFF));;
  throw_if (nonzero r) "Failed to set exposure mode";;
  r <- call (mmal_port_parameter_set (control camera)
               MMAL_PARAMETER_INPUT_CROP (PInputCrop 0 0 4096 4096));;
  throw_if (nonzero r) "Failed to set ROI";;
  recommended <- read (fun h =>
    buffer_size_recommended h (port camera MMAL_CAMERA_CAPTURE_PORT));;
  call (store_buffer_size (port camera MMAL_CAMERA_CAPTURE_PORT) recommended);;
  r <- call (mmal_port_parameter_set_boolean
               (output camera MMAL_CAMERA_VIDEO_PORT)
               MMAL_PARAMETER_ZERO_COPY MMAL_TRUE);;
  throw_if (nonzero r) "Failed to turn on zero-copy for video port";;
  r <- call (mmal_port_parameter_set_boolean
               (output camera MMAL_CAMERA_CAPTURE_PORT)
               MMAL_PARAMETER_ENABLE_RAW_CAPTURE 1);;
  throw_if (nonzero r) "Failed to set raw capture";;
  r <- call (mmal_port_parameter_set_uint32 (control camera)
               MMAL_PARAMETER_CAPTURE_STATS_PASS MMAL_TRUE);;
  throw_if (nonzero r) "Failed to set CAPTURE_STATS_PASS";;
  (* Exposure time. *)
  r <- call (mmal_port_parameter_set_uint32 (control camera)
               MMAL_PARAMETER_SHUTTER_SPEED (shutter_speed this));;
  throw_if (nonzero r) "Failed to set shutter speed";;
  actual_shutter_speed <- get_shutter_speed;;
  (if shutter_speed_differs (shutter_speed this) actual_shutter_speed then
     fprintf_stderr (msg_shutter_mismatch (shutter_speed this)
                       actual_shutter_speed)
   else ret tt);;
  (* Exposure ranges *)
  let low := fst (exposure_range this) in
  let high := snd (exposure_range this) in
  fprintf_stderr (msg_setting_fps low high);;
  r <- call (mmal_port_parameter_set (output camera MMAL_CAMERA_CAPTURE_PORT)
               MMAL_PARAMETER_FPS_RANGE (PFpsRange low high));;
  throw_if (nonzero r) "Failed to set FPS range";;
  r <- call (mmal_port_parameter_get (output camera MMAL_CAMERA_CAPTURE_PORT)
               MMAL_PARAMETER_FPS_RANGE (PFpsRange low high));;
  throw_if (nonzero r) "Failed to get FPS range";;
  let fps_range := fps_range_of (filled r) low high in
  (if rational_differs (fst fps_range) low
      || rational_differs (snd fps_range) high then
     fprintf_stderr (msg_fps_mismatch (fst fps_range) (snd fps_range))
   else ret tt);;
  (* Gain settings *)
  n <- determinate (double_to_int32 (double_mul (gain this) double_65536));;
  r <- call (mmal_port_parameter_set_rational (control camera)
               MMAL_PARAMETER_ANALOG_GAIN {| num := n; den := 65536 |});;
  throw_if (nonzero r) "Failed to set analog gain";;
  fprintf_stderr (msg_gain n 65536).

End Methods.

Arguments M : clear implicits.

(** ** Properties of runs *)

Section RunProperties.

Context {HW : Type} `{MMAL HW}.

(** Every event of every run of [m] satisfies [P]. *)
Definition emits_only {A : Type} (P : Event -> Prop) (m : M HW A) : Prop :=
  forall h, Forall P (trace (m h)).


(** Whatever a run of [m] returns satisfies [R]. *)
Definition returns_only {A : Type} (R : A -> Prop) (m : M HW A) : Prop :=
  forall h a, outcome (m h) = Returned a -> R a.

End RunProperties.

(** ** A scripted vendor layer

    A bench stand-in for the firmware: every call is answered from a fixed
    table, and the [is_enabled] flag of a port follows the successful
    [mmal_port_enable] and [mmal_port_disable] calls on it. *)

Definition Component_eqb (a b : Component) : bool :=
  match a, b with
  | camera, camera | camera_info, camera_info => true
  | _, _ => false
  end.

Definition Port_eqb (a b : Port) : bool :=
  match a, b with
  | control c, control d => Component_eqb c d
  | output c i, output d j => Component_eqb c d && Nat.eqb i j
  | port c i, port d j => Component_eqb c d && Nat.eqb i j
  | _, _ => false
  end.

Record Script := {
  answers : MMALCall -> Response;
  enabled : Port -> bool;
  outputs : Z;
  recommended : Z;
  port_format : MMAL_ES_FORMAT_T
}.

Definition set_enabled (p : Port) (b : bool) (s : Script) : Script :=
  {| answers := answers s;
     enabled := fun q => if Port_eqb p q then b else enabled s q;
     outputs := outputs s;
     recommended := recommended s;
     port_format := port_format s |}.

Definition Script_call (s : Script) (c : MMALCall) : Script * Response :=
  let r := answers s c in
  let s' :=
    if ret_val r =? 0 then
      match c with
      | mmal_port_enable p => set_enabled p true s
      | mmal_port_disable p => set_enabled p false s
      | _ => s
      end
    else s in
  (s', r).

#[export] Instance Script_MMAL : MMAL Script := {
  mmal_call := Script_call;
  is_enabled := enabled;
  output_num := fun s _ => outputs s;
  buffer_size_recommended := fun s _ => recommended s;
  format := fun s _ => port_format s
}.

Definition success : Response := {| ret_val := MMAL_SUCCESS; filled := None |}.
Definition failure : Response := {| ret_val := 1; filled := None |}.
Definition gives (v : Param) : Response :=
  {| ret_val := MMAL_SUCCESS; filled := Some v |}.

Definition no_format : MMAL_ES_FORMAT_T :=
  {| encoding := 0; encoding_variant := 0; video_width := 0; video_height := 0;
     crop_x := 0; crop_y := 0; crop_width := 0; crop_height := 0;
     frame_rate := {| num := 0; den := 0 |}; par := {| num := 0; den := 0 |} |}.

(** A bench where nothing is enabled yet and every call is answered by
    [a]. *)
Definition bench (a : MMALCall -> Response) : Script :=
  {| answers := a; enabled := fun _ => false; outputs := 3;
     recommended := 4096; port_format := no_format |}.

(** An object before its constructor has run, with the given exposure
    settings. *)
Definition members (speed : Z) (g : spec_float) : MMALCamera :=
  {| cameraNum := 0; cameraName := []; shutter_speed := speed; iso := 0;
     gain := g; width := 0; height := 0;
     fps_low := {| num := 0; den := 0 |};
     fps_high := {| num := 0; den := 0 |} |}.

Definition double_1 : spec_float := S754_finite false (2 ^ 52) (-52).
Definition double_2 : spec_float := S754_finite false (2 ^ 52) (-51).

(** Answer tables for the bench. *)

Definition every_call_succeeds (c : MMALCall) : Response := success.

Definition capture_flag_fails (c : MMALCall) : Response :=
  match c with
  | mmal_port_parameter_set (output camera 2) MMAL_PARAMETER_CAPTURE _ => failure
  | _ => success
  end.

Definition capture_port_disable_fails (c : MMALCall) : Response :=
  match c with
  | mmal_port_disable (output camera 2) => failure
  | _ => success
  end.

(** A bench on which the control port and the capture port are enabled. *)
Definition running (a : MMALCall -> Response) : Script :=
  set_enabled (control camera) true
    (set_enabled (output camera MMAL_CAMERA_CAPTURE_PORT) true (bench a)).

(** The vendor answers every call with success and reads the shutter speed
    back as [v]. *)
Definition reads_back (v : Z) (c : MMALCall) : Response :=
  match c with
  | mmal_port_parameter_get _ MMAL_PARAMETER_SHUTTER_SPEED _ => gives (PUint32 v)
  | _ => success
  end.


(** ** The gain as a number

    The value of a finite [double], and the two ways of making an integer
    of a rational: the nearest integer, which is what rounding means, and
    the integer part. *)

Definition SF2Q (x : spec_float) : Q :=
  match x with
  | S754_finite s m e => inject_Z (if s then Zneg m else Zpos m) * Qpower 2 e
  | _ => 0
  end.


Definition integer_part (x : Q) : Z :=
  if Qle_bool 0 x then Qfloor x else Qceiling x.


(** A firmware of the newer kind: it refuses the undersized camera-info
    query on the camera's own control port, answers the probe with
    [info], reports an FPS range of 1/1 to 30/1 and reads the shutter
    speed back as [speed]; everything else succeeds. *)
Definition firmware (info : MMAL_PARAMETER_CAMERA_INFO_T) (speed : Z)
  (c : MMALCall) : Response :=
  match c with
  | mmal_port_parameter_get (control camera) MMAL_PARAMETER_CAMERA_INFO _ =>
      failure
  | mmal_port_parameter_get (control camera_info) MMAL_PARAMETER_CAMERA_INFO _ =>
      gives (PCameraInfo info)
  | mmal_port_parameter_get _ MMAL_PARAMETER_FPS_RANGE _ =>
      gives (PFpsRange {| num := 1; den := 1 |} {| num := 30; den := 1 |})
  | mmal_port_parameter_get _ MMAL_PARAMETER_SHUTTER_SPEED _ =>
      gives (PUint32 speed)
  | _ => success
  end.

Definition imx477 : MMAL_PARAMETER_CAMERA_INFO_CAMERA_T :=
  {| max_width := 4056; max_height := 3040;
     camera_name := list_ascii_of_string "imx477" |}.

Definition one_camera : MMAL_PARAMETER_CAMERA_INFO_T :=
  {| num_cameras := 1; cameras := [imx477] |}.

(** A positive normal [double] below 32768: the gains whose product with
    65536 converts to a 32-bit integer. *)
Definition gain_in_range (g : spec_float) : Prop :=
  valid_binary prec emax g = true
  /\ SFclassify prec g = FloatClass.PNormal
  /\ (SF2Q g < 32768)%Q.

(** The full-size camera-info query that [get_sensor_info] puts to the
    probe component. *)
Definition probe_query : MMALCall :=
  mmal_port_parameter_get (control camera_info) MMAL_PARAMETER_CAMERA_INFO
    (PHeader 0).

(** A newer firmware whose probe does not answer. *)
Definition probe_query_fails (c : MMALCall) : Response :=
  match c with
  | mmal_port_parameter_get _ MMAL_PARAMETER_CAMERA_INFO _ => failure
  | _ => success
  end.

(** A sensor entry whose maximum resolution is reported as 0 x 0. *)
Definition blank_sensor : MMAL_PARAMETER_CAMERA_INFO_CAMERA_T :=
  {| max_width := 0; max_height := 0;
     camera_name := list_ascii_of_string "blank" |}.

Definition one_blank_camera : MMAL_PARAMETER_CAMERA_INFO_T :=
  {| num_cameras := 1; cameras := [blank_sensor] |}.

(** A bench whose capture port holds the format [fmt]. *)
Definition bench_holding (fmt : MMAL_ES_FORMAT_T) (a : MMALCall -> Response) :
  Script :=
  {| answers := a; enabled := fun _ => false; outputs := 3;
     recommended := 4096; port_format := fmt |}.

Definition rgb24_format : MMAL_ES_FORMAT_T :=
  {| encoding := MMAL_ENCODING_RGB24; encoding_variant := 0;
     video_width := 0; video_height := 0;
     crop_x := 0; crop_y := 0; crop_width := 0; crop_height := 0;
     frame_rate := {| num := 0; den := 1 |}; par := {| num := 1; den := 1 |} |}.

(** The vendor reports that the RGB order is not fixed ([MMAL_FALSE]);
    every other call succeeds. *)
Definition rgb_order_not_fixed (c : MMALCall) : Response :=
  match c with
  | mmal_util_rgb_order_fixed _ => {| ret_val := 0; filled := None |}
  | _ => success
  end.

(** ** Vocabulary for further properties *)

(** An event that is not a vendor call whose status came back as a
    failure; the store into [buffer_size] has no status. *)
Definition not_a_failure (e : Event) : Prop :=
  match e with
  | Call (store_buffer_size _ _) _ => True
  | Call _ r => nonzero r = false
  | Stderr _ => True
  end.

(** The ports of the camera component that [set_camera_parameters]
    addresses. *)
Definition parameter_port (p : Port) : Prop :=
  p = control camera
  \/ p = output camera MMAL_CAMERA_VIDEO_PORT
  \/ p = output camera MMAL_CAMERA_CAPTURE_PORT.

(** Setting or getting a parameter of the camera, or storing a buffer
    size: nothing that creates, enables, disables, commits or destroys. *)
Definition parameter_traffic (e : Event) : Prop :=
  match e with
  | Call (mmal_port_parameter_set p _ _) _ => parameter_port p
  | Call (mmal_port_parameter_get p _ _) _ => parameter_port p
  | Call (store_buffer_size p _) _ => p = port camera MMAL_CAMERA_CAPTURE_PORT
  | Call _ _ => False
  | Stderr _ => True
  end.

(** What [set_camera_parameters] sets a parameter to, for the parameters
    whose value does not depend on the exposure regime or on the gain. *)
Definition fixed_setting (USE_ISO : bool) (this : MMALCamera) (id : ParamId) :
  option (Port * Param) :=
  match id with
  | MMAL_PARAMETER_AWB_MODE =>
      Some (control camera, PAwbMode MMAL_PARAM_AWBMODE_AUTO)
  | MMAL_PARAMETER_SATURATION =>
      Some (control camera, PRational {| num := 10; den := 0 |})
  | MMAL_PARAMETER_DIGITAL_GAIN =>
      Some (control camera, PRational {| num := 1; den := 1 |})
  | MMAL_PARAMETER_ISO =>
      if USE_ISO then Some (control camera, PUint32 (iso this)) else None
  | MMAL_PARAMETER_BRIGHTNESS =>
      Some (control camera, PRational {| num := 50; den := 100 |})
  | MMAL_PARAMETER_EXPOSURE_MODE =>
      Some (control camera, PExposureMode MMAL_PARAM_EXPOSUREMODE_OFF)
  | MMAL_PARAMETER_INPUT_CROP =>
      Some (control camera, PInputCrop 0 0 4096 4096)
  | MMAL_PARAMETER_ZERO_COPY =>
      Some (output camera MMAL_CAMERA_VIDEO_PORT, PBoolean 1)
  | MMAL_PARAMETER_ENABLE_RAW_CAPTURE =>
      Some (output camera MMAL_CAMERA_CAPTURE_PORT, PBoolean 1)
  | MMAL_PARAMETER_CAPTURE_STATS_PASS =>
      Some (control camera, PUint32 1)
  | MMAL_PARAMETER_SHUTTER_SPEED =>
      Some (control camera, PUint32 (shutter_speed this))
  | _ => None
  end.

(** Events that are lines on [stderr]. *)
Definition is_print (e : Event) : Prop :=
  match e with
  | Stderr _ => True
  | Call _ _ => False
  end.

(** What a constructor may do: select the camera, set the sensor mode and
    the camera configuration, enable the control port, create components,
    destroy the probe, query, and commit a format.  It may not enable or
    disable the component, disable a port, or touch any other
    parameter. *)
Definition construction_traffic (e : Event) : Prop :=
  match e with
  | Call (mmal_component_enable _) _ => False
  | Call (mmal_component_disable _) _ => False
  | Call (mmal_port_disable _) _ => False
  | Call (store_buffer_size _ _) _ => False
  | Call (mmal_port_enable p) _ => p = control camera
  | Call (mmal_component_destroy c) _ => c = camera_info
  | Call (mmal_port_parameter_set p id _) _ =>
      p = control camera
      /\ (id = MMAL_PARAMETER_CAMERA_NUM
          \/ id = MMAL_PARAMETER_CAMERA_CUSTOM_SENSOR_CONFIG
          \/ id = MMAL_PARAMETER_CAMERA_CONFIG)
  | Call _ _ => True
  | Stderr _ => True
  end.

(** * Properties *)

(** ** Reasoning about runs *)

Section Runs.

Context {HW : Type} `{MMAL HW}.

Lemma run_bind {A B : Type} (m : M HW A) (k : A -> M HW B) (h : HW) :
  bind m k h =
    match outcome (m h) with
    | Returned a =>
        (outcome (k a (final (m h))), final (k a (final (m h))),
         trace (m h) ++ trace (k a (final (m h))))
    | Thrown what => (Thrown what, final (m h), trace (m h))
    | Undefined => (Undefined, final (m h), trace (m h))
    | Terminated what => (Terminated what, final (m h), trace (m h))
    end.
Proof.
  unfold bind, outcome, final, trace.
  destruct (m h) as [[[a | what | | what] h1] t1]; cbn; try reflexivity.
  destruct (k a h1) as [[o h2] t2]; reflexivity.
Qed.

Lemma bind_assoc {A B C : Type} (m : M HW A) (f : A -> M HW B) (g : B -> M HW C) h :
  bind (bind m f) g h = bind m (fun a => bind (f a) g) h.
Proof.
  unfold bind.
  destruct (m h) as [[[a | what | | what] h1] t1]; try reflexivity.
  destruct (f a h1) as [[[b | what | | what] h2] t2]; try reflexivity.
  destruct (g b h2) as [[o h3] t3]. now rewrite app_assoc.
Qed.

Lemma run_noexcept {A : Type} (m : M HW A) (h : HW) :
  noexcept m h =
    (match outcome (m h) with
     | Thrown what => Terminated what
     | o => o
     end, final (m h), trace (m h)).
Proof.
  unfold noexcept, outcome, final, trace.
  now destruct (m h) as [[[a | what | | what] h1] t1].
Qed.

Lemma run_call {A : Type} (c : MMALCall) (k : Response -> M HW A) (h : HW) :
  bind (call c) k h =
    (outcome (k (snd (mmal_call h c)) (fst (mmal_call h c))),
     final (k (snd (mmal_call h c)) (fst (mmal_call h c))),
     Call c (snd (mmal_call h c))
       :: trace (k (snd (mmal_call h c)) (fst (mmal_call h c)))).
Proof.
  unfold bind, call, outcome, final, trace.
  destruct (mmal_call h c) as [h1 r]; cbn.
  destruct (k r h1) as [[o h2] t2]; reflexivity.
Qed.

Lemma run_throw_if {A : Type} (b : bool) (text : string) (k : unit -> M HW A) h :
  bind (throw_if b text) k h =
    if b then (Thrown text, h, []) else k tt h.
Proof.
  unfold bind, throw_if. destruct b; cbn; [reflexivity |].
  destruct (k tt h) as [[o h2] t2]; reflexivity.
Qed.

Lemma run_read {A B : Type} (f : HW -> A) (k : A -> M HW B) h :
  bind (read f) k h = k (f h) h.
Proof.
  unfold bind, read. destruct (k (f h) h) as [[o h2] t2]; reflexivity.
Qed.

Lemma run_ret {A B : Type} (a : A) (k : A -> M HW B) h :
  bind (ret a) k h = k a h.
Proof.
  unfold bind, ret. destruct (k a h) as [[o h2] t2]; reflexivity.
Qed.

Lemma run_fprintf {A : Type} (d : Diag) (k : unit -> M HW A) h :
  bind (fprintf_stderr d) k h =
    (outcome (k tt h), final (k tt h), Stderr d :: trace (k tt h)).
Proof.
  unfold bind, fprintf_stderr, outcome, final, trace.
  destruct (k tt h) as [[o h2] t2]; reflexivity.
Qed.

Lemma run_determinate {A B : Type} (o : option A) (k : A -> M HW B) h :
  bind (determinate o) k h =
    match o with
    | Some a => k a h
    | None => (Undefined, h, [])
    end.
Proof.
  destruct o; cbn; [apply run_ret | reflexivity].
Qed.

(** *** Rules for [emits_only] *)

Lemma emits_only_bind {A B : Type} P (m : M HW A) (k : A -> M HW B) :
  emits_only P m -> (forall a, emits_only P (k a)) ->
  emits_only P (bind m k).
Proof.
  intros Hm Hk h. rewrite run_bind.
  specialize (Hm h).
  destruct (outcome (m h)); cbn; auto.
  apply Forall_app; split; [assumption | apply Hk].
Qed.

Lemma emits_only_call P (c : MMALCall) :
  (forall r, P (Call c r)) -> emits_only P (call c).
Proof.
  intros Hc h. unfold call, trace. destruct (mmal_call h c); cbn.
  constructor; auto.
Qed.

Lemma emits_only_ret {A : Type} P (a : A) : emits_only (HW := HW) P (ret a).
Proof. intros h; constructor. Qed.

Lemma emits_only_throw_if P b text : emits_only (HW := HW) P (throw_if b text).
Proof. intros h; destruct b; constructor. Qed.

Lemma emits_only_read {A : Type} P (f : HW -> A) : emits_only P (read f).
Proof. intros h; constructor. Qed.

Lemma emits_only_determinate {A : Type} P (o : option A) :
  emits_only (HW := HW) P (determinate o).
Proof. intros h; destruct o; constructor. Qed.

Lemma emits_only_fprintf P d :
  P (Stderr d) -> emits_only (HW := HW) P (fprintf_stderr d).
Proof. intros Hd h; cbn. constructor; auto. Qed.

(** *** Rules for [on_return] *)




End Runs.

#[local] Arguments bind : simpl never.

(** One step of a run: the leading call, test, read or print of the method
    is performed. *)
Ltac step :=
  first
    [ rewrite run_call
    | rewrite run_throw_if
    | rewrite run_read
    | rewrite run_fprintf
    | rewrite run_determinate
    | rewrite run_ret
    | rewrite bind_assoc ].

(** Settles a goal about which calls a short, explicit trace holds. *)
Ltac absent :=
  repeat match goal with
    | H : exists _, _ |- _ => destruct H
    | H : _ /\ _ |- _ => destruct H
    | H : In _ _ |- _ => cbn in H
    | H : _ \/ _ |- _ => destruct H
    | H : False |- _ => destruct H
    | H : Call _ _ = Call _ _ |- _ => discriminate H
    | H : true = false |- _ => discriminate H
    | H : false = true |- _ => discriminate H
    end.

Ltac traces :=
  repeat match goal with
    | |- _ /\ _ => split
    | |- _ <-> _ => split
    | |- _ -> _ => intro
    end;
  absent; cbn; try reflexivity; try discriminate; eauto 6.

(** ** Teardown and abort *)

Section Lifecycle.

Context {HW : Type} `{MMAL HW}.

(** C9. A destructor that finds neither the capture port nor the control
    port enabled calls nothing, prints nothing, throws nothing and
    leaves the vendor layer as it found it. *)
Theorem dtor_of_disabled_ports (h : HW) :
  is_enabled h (output camera MMAL_CAMERA_CAPTURE_PORT) = false ->
  is_enabled h (control camera) = false ->
  MMALCamera_dtor h = (Returned tt, h, []).
Proof.
  intros Hcap Hctl. unfold MMALCamera_dtor.
  rewrite run_noexcept, run_read, Hcap, run_ret, run_read, Hctl. reflexivity.
Qed.

(** The destructor from end to end.  The capture port is disabled
    exactly when it is enabled; the control port is disabled exactly when
    that first step did not fail and the control port is then enabled.
    The first failing disable ends the destructor, and as its exception
    cannot leave a destructor it ends the program: no failure of a
    disable is ever thrown to the caller. *)
Lemma dtor_stops_at_first_failure (h : HW) :
  let cap := output camera MMAL_CAMERA_CAPTURE_PORT in
  let ctl := control camera in
  let r1 := snd (mmal_call h (mmal_port_disable cap)) in
  let h1 := if is_enabled h cap
            then fst (mmal_call h (mmal_port_disable cap)) else h in
  let r2 := snd (mmal_call h1 (mmal_port_disable ctl)) in
  ((exists r, In (Call (mmal_port_disable cap) r) (trace (MMALCamera_dtor h)))
   <-> is_enabled h cap = true)
  /\ ((exists r, In (Call (mmal_port_disable ctl) r) (trace (MMALCamera_dtor h)))
      <-> is_enabled h cap && nonzero r1 = false
          /\ is_enabled h1 ctl = true)
  /\ outcome (MMALCamera_dtor h) =
       if is_enabled h cap && nonzero r1
       then Terminated "Failed to disable capture port"
       else if is_enabled h1 ctl && nonzero r2
            then Terminated "Failed to disable control port"
            else Returned tt.
Proof.
  cbv zeta. unfold MMALCamera_dtor. rewrite run_noexcept, run_read.
  destruct (is_enabled h (output camera MMAL_CAMERA_CAPTURE_PORT)) eqn:Ecap.
  - rewrite bind_assoc, run_call, run_throw_if.
    destruct (nonzero (snd (mmal_call h (mmal_port_disable
                (output camera MMAL_CAMERA_CAPTURE_PORT))))) eqn:E1; cbn.
    + traces.
    + rewrite run_read.
      destruct (is_enabled _ (control camera)) eqn:Ectl; cbn.
      * unfold bind, call, throw_if.
        destruct (mmal_call _ (mmal_port_disable (control camera)))
          as [h2 r2]; cbn.
        destruct (nonzero r2); cbn; traces.
      * traces.
  - rewrite run_ret, run_read.
    destruct (is_enabled h (control camera)) eqn:Ectl; cbn.
    + unfold bind, call, throw_if.
      destruct (mmal_call h (mmal_port_disable (control camera)))
        as [h2 r2]; cbn.
      destruct (nonzero r2); cbn; traces.
    + traces.
Qed.

(** C4, as amended. [abort] is fail-fast: the capture flag is always
    cleared first; the component is disabled exactly when that call
    succeeded; the first failing step ends [abort] with its
    exception. *)
Theorem abort_stops_at_first_failure (h : HW) :
  let clear := mmal_port_parameter_set_boolean
                 (output camera MMAL_CAMERA_CAPTURE_PORT)
                 MMAL_PARAMETER_CAPTURE 0 in
  let disable := mmal_component_disable camera in
  let r1 := snd (mmal_call h clear) in
  let h1 := fst (mmal_call h clear) in
  let r2 := snd (mmal_call h1 disable) in
  hd_error (trace (abort h)) = Some (Call clear r1)
  /\ ((exists r, In (Call disable r) (trace (abort h)))
      <-> nonzero r1 = false)
  /\ outcome (abort h) =
       if nonzero r1 then Thrown "Failed to abort capture"
       else if nonzero r2
            then Thrown "camera component couldn't be disabled"
            else Returned tt.
Proof.
  cbv zeta. unfold abort. rewrite run_call, run_throw_if.
  destruct (nonzero (snd (mmal_call h _))) eqn:E1; cbn.
  - traces.
  - rewrite run_call, run_throw_if.
    destruct (nonzero (snd (mmal_call _ (mmal_component_disable camera))));
      cbn; traces.
Qed.

End Lifecycle.

(** C9, on the bench: nothing was ever enabled. *)
Lemma dtor_of_disabled_ports_bench :
  MMALCamera_dtor (bench every_call_succeeds)
  = (Returned tt, bench every_call_succeeds, []).
Proof.
  apply (dtor_of_disabled_ports (bench every_call_succeeds)); reflexivity.
Defined.

(** C5, where the code departs from it: with both ports enabled and a
    capture port that cannot be disabled, the destructor makes that one
    call and stops.  The control port's disable is never attempted, and
    the failure is not reported as an error the caller could handle: its
    exception leaves a destructor that lets none out, and the program
    ends in [std::terminate]. *)
Theorem dtor_terminates_on_failed_capture_disable :
  let h := running capture_port_disable_fails in
  let x := MMALCamera_dtor h in
  is_enabled h (output camera MMAL_CAMERA_CAPTURE_PORT) = true
  /\ is_enabled h (control camera) = true
  /\ (exists r,
        trace x = [Call (mmal_port_disable
                           (output camera MMAL_CAMERA_CAPTURE_PORT)) r]
        /\ nonzero r = true)
  /\ ~ (exists r, In (Call (mmal_port_disable (control camera)) r) (trace x))
  /\ outcome x = Terminated "Failed to disable capture port"
  /\ (forall what, outcome x <> Thrown what).
Proof.
  cbv zeta. repeat match goal with |- _ /\ _ => split end;
    try reflexivity.
  - eexists. split; vm_compute; reflexivity.
  - intros [r Hin]. vm_compute in Hin. destruct Hin as [E | []].
    discriminate.
  - intros what. vm_compute. discriminate.
Qed.

(** C4, as stated, fails: when the capture flag cannot be cleared, [abort]
    ends on that exception and the component disable is never
    attempted. *)
Lemma abort_skips_disable_after_failed_clear :
  let h := bench capture_flag_fails in
  outcome (abort h) = Thrown "Failed to abort capture"
  /\ ~ (exists r, In (Call (mmal_component_disable camera) r)
                    (trace (abort h))).
Proof.
  cbv zeta. split; [reflexivity |].
  intros [r Hin]. vm_compute in Hin. destruct Hin as [E | []]. discriminate.
Qed.

(** ** More rules for runs *)

Section MoreRuns.

Context {HW : Type} `{MMAL HW}.

Lemma emits_only_determinate_bind {A B : Type} P (o : option A)
  (k : A -> M HW B) :
  (forall a, o = Some a -> emits_only P (k a)) ->
  emits_only P (bind (determinate o) k).
Proof.
  intros Hk h. rewrite run_determinate. destruct o as [a |].
  - now apply Hk.
  - constructor.
Qed.


Lemma emits_only_throw {A : Type} P text :
  emits_only (HW := HW) (A := A) P (throw text).
Proof. intros h; constructor. Qed.

Lemma emits_only_undefined {A : Type} P :
  emits_only (HW := HW) (A := A) P undefined.
Proof. intros h; constructor. Qed.

Lemma emits_only_in {A : Type} P (m : M HW A) h e :
  emits_only P m -> In e (trace (m h)) -> P e.
Proof.
  intros Hm Hin. specialize (Hm h).
  rewrite Forall_forall in Hm. auto.
Qed.

Lemma returns_only_bind {A B : Type} R (m : M HW A) (k : A -> M HW B) :
  (forall a, returns_only R (k a)) -> returns_only R (bind m k).
Proof.
  intros Hk h b. rewrite run_bind.
  destruct (outcome (m h)) as [a | what | | what]; cbn; try discriminate.
  apply Hk.
Qed.

Lemma returns_only_ret {A : Type} (R : A -> Prop) (a : A) :
  R a -> returns_only (HW := HW) R (ret a).
Proof. intros Ha h b E. now inversion E; subst. Qed.

(** A step that never emits [e] is passed on the way to [e]. *)
Lemma pass_bind {A B : Type} (e : Event) (m : M HW A) (k : A -> M HW B) h :
  emits_only (fun e' => e' <> e) m ->
  In e (trace (bind m k h)) ->
  exists a,
    outcome (m h) = Returned a
    /\ In e (trace (k a (final (m h))))
    /\ outcome (bind m k h) = outcome (k a (final (m h))).
Proof.
  intros Hm. rewrite run_bind.
  destruct (outcome (m h)) as [a | what | | what]; cbn; intros Hin.
  - apply in_app_or in Hin. destruct Hin as [Hin | Hin].
    + now apply (emits_only_in _ _ _ _ Hm) in Hin.
    + eauto.
  - now apply (emits_only_in _ _ _ _ Hm) in Hin.
  - now apply (emits_only_in _ _ _ _ Hm) in Hin.
  - now apply (emits_only_in _ _ _ _ Hm) in Hin.
Qed.

End MoreRuns.

(** Splits an [emits_only] goal along the statements of the method and
    settles each call by [tac]. *)
Ltac emits_by tac :=
  repeat first
    [ apply emits_only_determinate_bind; intros ? ?
    | apply emits_only_bind; [| intros ? ]
    | apply emits_only_throw_if
    | apply emits_only_ret
    | apply emits_only_throw
    | apply emits_only_undefined
    | apply emits_only_read
    | apply emits_only_determinate
    | apply emits_only_call; tac
    | apply emits_only_fprintf; tac
    | match goal with
      | |- emits_only _ (if ?b then _ else _) => destruct b eqn:?
      end ].

(** A call of another kind, or with another parameter, is not the one a
    property speaks of; the one it speaks of has the arguments stated. *)
Ltac other_call :=
  intros; try discriminate;
  match goal with
  | E : Call _ _ = Call _ _ |- _ => inversion E; subst; clear E
  | E : Stderr _ = Call _ _ |- _ => discriminate E
  | E : Stderr _ = Stderr _ |- _ => inversion E; subst; clear E
  | _ => idtac
  end.


(** ** Walking a run *)

Section Walks.

Context {HW : Type} `{MMAL HW}.

Lemma run_optional_print {A : Type} (b : bool) (d : Diag)
  (k : unit -> M HW A) h :
  bind (if b then fprintf_stderr d else ret tt) k h =
    (outcome (k tt h), final (k tt h),
     (if b then [Stderr d] else []) ++ trace (k tt h)).
Proof.
  destruct b; [apply run_fprintf |].
  rewrite run_ret. now destruct (k tt h) as [[o h2] t2].
Qed.

End Walks.

(** One statement of a method, along the only way a run can go on: a test
    that throws ends a case of its own. *)
Ltac walk1 :=
  first
    [ rewrite run_call;
      match goal with
      | |- context [mmal_call ?h ?c] => destruct (mmal_call h c) as [? ?]
      end
    | rewrite run_throw_if;
      match goal with
      | |- context [if ?b then (Thrown _, _, _) else _] => destruct b eqn:?
      end
    | rewrite run_optional_print
    | rewrite run_read
    | rewrite run_fprintf
    | rewrite run_determinate;
      match goal with
      | |- context [match ?o with
                    | Some _ => _
                    | None => (Undefined, _, _)
                    end] => destruct o eqn:?
      end
    | rewrite run_ret
    | rewrite bind_assoc ];
  cbn [trace outcome final fst snd app].

Ltac walk := repeat walk1.

(** ** Applying the exposure parameters *)

Section Parameters.

Context {HW : Type} `{MMAL HW}.
Variable USE_ISO : bool.





End Parameters.

(** ** The shutter speed read back *)

Section Shutter.

Context {HW : Type} `{MMAL HW}.
Variable USE_ISO : bool.

(** Where neither bound wraps around, the test is the tolerance of
    100000 microseconds on either side. *)
Lemma shutter_speed_differs_in_range (requested actual : Z) :
  100000 <= requested <= 2 ^ 32 - 1 - 100000 ->
  shutter_speed_differs requested actual = true
  <-> 100000 < Z.abs (actual - requested).
Proof.
  intros Hreq. unfold shutter_speed_differs, uint32.
  rewrite !Z.mod_small by lia.
  rewrite orb_true_iff, Z.ltb_lt, Z.gtb_ltb, Z.ltb_lt. lia.
Qed.

(** Below 100000 microseconds the lower bound wraps around to the top of
    the 32-bit range, and every value read back is out of tolerance. *)
Lemma shutter_speed_differs_below (requested actual : Z) :
  0 <= requested < 100000 ->
  0 <= actual < 2 ^ 32 ->
  shutter_speed_differs requested actual = true.
Proof.
  intros Hreq Hact. unfold shutter_speed_differs, uint32.
  replace ((requested - 100000) mod 2 ^ 32)
    with (requested - 100000 + 2 ^ 32).
  - rewrite Z.mod_small by lia.
    rewrite orb_true_iff, Z.ltb_lt, Z.gtb_ltb, Z.ltb_lt. lia.
  - apply Z.mod_unique with (q := -1); lia.
Qed.

(** The warning is printed for the requested speed, and only when the
    test on the value read back says so. *)
Lemma shutter_warning_only_when_differs (this : MMALCamera) :
  emits_only
    (fun e => forall requested actual,
       e = Stderr (msg_shutter_mismatch requested actual) ->
       requested = shutter_speed this
       /\ shutter_speed_differs requested actual = true)
    (set_camera_parameters USE_ISO this).
Proof.
  unfold set_camera_parameters, get_shutter_speed.
  emits_by ltac:(other_call; auto).
Qed.

End Shutter.

(** C2, where the code departs from it: a shutter speed of 50000
    microseconds read back as exactly 50000 is within the tolerance, yet
    the run prints the mismatch warning (and goes on to return). *)
Theorem shutter_warning_at_exact_readback :
  let this := members 50000 double_1 in
  let x := set_camera_parameters false this (bench (reads_back 50000)) in
  Z.abs (50000 - shutter_speed this) <= 100000
  /\ In (Stderr (msg_shutter_mismatch 50000 50000)) (trace x)
  /\ outcome x = Returned tt.
Proof.
  cbv zeta. split; [| split].
  - vm_compute. discriminate.
  - vm_compute. repeat (first [left; reflexivity | right]).
  - reflexivity.
Qed.

(** ** Construction *)

Section Construction.

Context {HW : Type} `{MMAL HW}.
Variable cameraName_size : nat.


End Construction.



(** ** The analog gain *)

Section Gain.

(** Multiplying a normal [double] by 65536 only moves its exponent. *)
Lemma double_mul_65536 (s : bool) (m : positive) (e : Z) :
  digits2_pos m = 53%positive ->
  -1074 <= e <= 955 ->
  double_mul (S754_finite s m e) double_65536 = S754_finite s m (e + 16).
Proof.
  intros Hd He.
  unfold double_mul, double_65536, SFmul, binary_round_aux.
  rewrite Pos.mul_comm.
  change (2 ^ 52 * m)%positive with (Pos.iter xO m 52).
  unfold shr_fexp at 1.
  assert (Hdig : Zdigits2 (Zpos (Pos.iter xO m 52)) = 105).
  { cbn. rewrite Hd. reflexivity. }
  rewrite Hdig.
  replace (fexp prec emax (105 + (e + -36)) - (e + -36)) with 52
    by (unfold fexp, emin, prec, emax; lia).
  cbn [shr shr_record_of_loc].
  assert (Hshr : SpecFloat.iter_pos shr_1 52
            {| shr_m := Z.pos (Pos.iter xO m 52);
               shr_r := false; shr_s := false |}
          = {| shr_m := Z.pos m; shr_r := false; shr_s := false |})
    by reflexivity.
  rewrite Hshr. cbn [shr_m loc_of_shr_record round_nearest_even].
  unfold shr_fexp. cbn [Zdigits2 shr_record_of_loc]. rewrite Hd.
  replace (fexp prec emax (53 + (e + -36 + 52)) - (e + -36 + 52)) with 0
    by (unfold fexp, emin, prec, emax; lia).
  cbn [shr shr_m].
  replace (e + -36 + 52 <=? emax - prec) with true
    by (symmetry; apply Z.leb_le; unfold emax, prec; lia).
  rewrite xorb_false_r. f_equal. lia.
Qed.

Lemma scaled_value (m : positive) (e : Z) :
  e + 16 < 0 ->
  (SF2Q (S754_finite false m e) * 65536
   == inject_Z (Zpos m) / inject_Z (2 ^ (- (e + 16))))%Q.
Proof.
  intros He. unfold SF2Q.
  assert (H2 : ~ (2 == 0)%Q) by discriminate.
  replace 65536%Q with (inject_Z 2 ^ 16)%Q by reflexivity.
  rewrite <- Qmult_assoc, <- Qpower_plus by exact H2.
  replace (e + 16) with (- (- (e + 16))) at 1 by lia.
  rewrite Qpower_opp, Zpower_Qpower by lia. reflexivity.
Qed.

Lemma floor_of_scaled (m : positive) (e : Z) :
  e + 16 < 0 ->
  Qfloor (SF2Q (S754_finite false m e) * 65536)
  = Zpos m / 2 ^ (- (e + 16)).
Proof.
  intros He. rewrite (Qfloor_comp _ _ (scaled_value m e He)).
  symmetry. apply Zdiv_Qdiv.
Qed.

Lemma digits2_pos_bounds (m : positive) :
  2 ^ (Zpos (digits2_pos m) - 1) <= Zpos m < 2 ^ Zpos (digits2_pos m).
Proof.
  induction m as [m IH | m IH |]; cbn [digits2_pos].
  - rewrite Pos2Z.inj_succ.
    replace (Z.succ (Zpos (digits2_pos m)) - 1)
      with (Z.succ (Zpos (digits2_pos m) - 1)) by lia.
    rewrite !Z.pow_succ_r by lia. lia.
  - rewrite Pos2Z.inj_succ.
    replace (Z.succ (Zpos (digits2_pos m)) - 1)
      with (Z.succ (Zpos (digits2_pos m) - 1)) by lia.
    rewrite !Z.pow_succ_r by lia. lia.
  - cbn. lia.
Qed.

Lemma exponent_below_32768 (m : positive) (e : Z) :
  digits2_pos m = 53%positive ->
  (SF2Q (S754_finite false m e) < 32768)%Q ->
  e <= -38.
Proof.
  intros Hd Hlt.
  destruct (Z_le_gt_dec e (-38)) as [| Hgt]; [assumption | exfalso].
  pose proof (digits2_pos_bounds m) as Hm. rewrite Hd in Hm.
  apply (Qlt_not_le _ _ Hlt). unfold SF2Q.
  apply Qle_trans with (inject_Z (2 ^ 52) * 2 ^ (-37))%Q;
    [vm_compute; discriminate |].
  apply Qle_trans with (inject_Z (Zpos m) * 2 ^ (-37))%Q.
  - apply Qmult_le_compat_r; [| vm_compute; discriminate].
    rewrite <- Zle_Qle. lia.
  - apply Qmult_le_l; [reflexivity |].
    apply Qpower_le_compat_l; [lia | vm_compute; discriminate].
Qed.

(** The numerator the code computes is the integer part of the gain
    times 65536. *)
Lemma gain_numerator (g : spec_float) :
  gain_in_range g ->
  double_to_int32 (double_mul g double_65536)
  = Some (integer_part (SF2Q g * 65536)).
Proof.
  intros (Hvalid & Hclass & Hlt).
  destruct g as [s | s | | s m e]; try discriminate.
  - destruct s; discriminate.
  - destruct s; discriminate.
  - unfold SFclassify in Hclass.
    destruct (Z.pos (digits2_pos m) =? prec) eqn:E;
      destruct s; try discriminate.
    assert (Hd : digits2_pos m = 53%positive).
    { apply Z.eqb_eq in E. unfold prec in E. congruence. }
    clear E Hclass.
    pose proof (exponent_below_32768 m e Hd Hlt) as He.
    assert (Hmin : -1074 <= e).
    { cbn in Hvalid. apply andb_prop in Hvalid. destruct Hvalid as [Hc _].
      unfold canonical_mantissa, fexp, emin in Hc.
      apply Z.eqb_eq in Hc. rewrite Hd in Hc. unfold prec, emax in Hc. lia. }
    rewrite double_mul_65536 by (assumption || lia).
    pose proof (digits2_pos_bounds m) as Hm. rewrite Hd in Hm.
    assert (Hpow : 2 ^ 22 <= 2 ^ (- (e + 16)))
      by (apply Z.pow_le_mono_r; lia).
    assert (Hq : 0 <= Zpos m / 2 ^ (- (e + 16)) < 2 ^ 31).
    { split.
      - apply Z.div_pos; lia.
      - apply Z.div_lt_upper_bound; [lia |].
        apply Z.lt_le_trans with (2 ^ 22 * 2 ^ 31); [cbn in *; lia |].
        apply Z.mul_le_mono_nonneg_r; lia. }
    unfold double_to_int32.
    replace (0 <=? e + 16) with false by (symmetry; apply Z.leb_gt; lia).
    replace ((- 2 ^ 31 <=? Zpos m / 2 ^ (- (e + 16)))
             && (Zpos m / 2 ^ (- (e + 16)) <? 2 ^ 31)) with true.
    + f_equal. unfold integer_part.
      rewrite floor_of_scaled by lia.
      replace (Qle_bool 0 (SF2Q (S754_finite false m e) * 65536)) with true;
        [reflexivity |].
      symmetry. apply Qle_bool_iff.
      rewrite (scaled_value m e) by lia.
      apply Qle_shift_div_l.
      * replace 0%Q with (inject_Z 0) by reflexivity.
        rewrite <- Zlt_Qlt. lia.
      * rewrite Qmult_0_l.
        replace 0%Q with (inject_Z 0) by reflexivity.
        rewrite <- Zle_Qle. lia.
    + symmetry. apply andb_true_iff. split.
      * apply Z.leb_le. lia.
      * apply Z.ltb_lt. lia.
Qed.

End Gain.

Section GainCommitted.

Context {HW : Type} `{MMAL HW}.
Variable USE_ISO : bool.




End GainCommitted.



(** ** The capture port format *)

Section CaptureFormat.

Context {HW : Type} `{MMAL HW}.

Lemma rgb_order_compensate_opaque (fixed : bool) :
  rgb_order_compensate fixed MMAL_ENCODING_OPAQUE = MMAL_ENCODING_OPAQUE.
Proof. now destruct fixed. Qed.

(** C7, as amended. The format that [set_capture_port_format] commits
    to the capture port always has the opaque encoding and variant 0,
    whatever the vendor says of the RGB order and whatever encoding the
    port held: the exchange of RGB24 and BGR24 for a sensor without a
    fixed order is applied to the encoding just set to opaque, which it
    leaves alone.  The same holds of every format the constructor
    commits. *)
Theorem capture_port_encoding_is_opaque (this : MMALCamera) (h : HW) :
  let cap := output camera MMAL_CAMERA_CAPTURE_PORT in
  let x := set_capture_port_format this h in
  (exists r1 r2 fmt,
     trace x = [Call (mmal_util_rgb_order_fixed cap) r1;
                Call (mmal_port_format_commit cap fmt) r2]
     /\ encoding fmt = MMAL_ENCODING_OPAQUE
     /\ encoding_variant fmt = 0)
  /\ (forall fixed,
        rgb_order_compensate fixed MMAL_ENCODING_OPAQUE
        = MMAL_ENCODING_OPAQUE)
  /\ rgb_order_compensate false MMAL_ENCODING_RGB24 = MMAL_ENCODING_BGR24
  /\ rgb_order_compensate false MMAL_ENCODING_BGR24 = MMAL_ENCODING_RGB24
  /\ (forall enc, rgb_order_compensate true enc = enc)
  /\ (forall size init n h0,
        Forall (fun e => forall p fmt r,
                  e = Call (mmal_port_format_commit p fmt) r ->
                  p = cap
                  /\ encoding fmt = MMAL_ENCODING_OPAQUE
                  /\ encoding_variant fmt = 0)
          (trace (MMALCamera_ctor size init n h0))).
Proof.
  cbv zeta. repeat match goal with |- _ /\ _ => split end;
    try reflexivity.
  - unfold set_capture_port_format.
    rewrite run_read, run_call. unfold bind, call, throw_if.
    destruct (mmal_call _ (mmal_port_format_commit _ _)) as [h2 r2] eqn:E2.
    cbn. do 3 eexists. split.
    + destruct (nonzero r2); cbn; reflexivity.
    + cbn. now rewrite rgb_order_compensate_opaque.
  - apply rgb_order_compensate_opaque.
  - intros size init n h0. revert h0.
    change (emits_only
      (fun e => forall p fmt r,
         e = Call (mmal_port_format_commit p fmt) r ->
         p = output camera MMAL_CAMERA_CAPTURE_PORT
         /\ encoding fmt = MMAL_ENCODING_OPAQUE
         /\ encoding_variant fmt = 0)
      (MMALCamera_ctor size init n)).
    unfold MMALCamera_ctor, MMALComponent_ctor, enable_port_with_callback,
      get_sensor_info, set_capture_port_format.
    emits_by ltac:(other_call; auto).
    cbn. now rewrite rgb_order_compensate_opaque.
Qed.

End CaptureFormat.

(** C7, as stated, fails: on a capture port that holds an RGB24 format,
    with a sensor whose RGB order is not fixed, the format committed is
    the opaque one, not BGR24. *)
Lemma rgb24_is_committed_as_opaque :
  let h := bench_holding rgb24_format rgb_order_not_fixed in
  let cap := output camera MMAL_CAMERA_CAPTURE_PORT in
  let x := set_capture_port_format (members 100000 double_1) h in
  encoding (format h cap) = MMAL_ENCODING_RGB24
  /\ ret_val (snd (mmal_call h (mmal_util_rgb_order_fixed cap))) = 0
  /\ MMAL_ENCODING_OPAQUE <> MMAL_ENCODING_BGR24
  /\ (exists fmt,
        In (Call (mmal_port_format_commit cap fmt) success) (trace x)
        /\ encoding fmt = MMAL_ENCODING_OPAQUE)
  /\ ~ (exists fmt r,
          In (Call (mmal_port_format_commit cap fmt) r) (trace x)
          /\ encoding fmt = MMAL_ENCODING_BGR24).
Proof.
  cbv zeta. split; [| split; [| split; [| split]]].
  - reflexivity.
  - reflexivity.
  - vm_compute. discriminate.
  - eexists. split.
    + vm_compute. right. left. reflexivity.
    + reflexivity.
  - intros (fmt & r & Hin & Henc). vm_compute in Hin.
    destruct Hin as [E | [E | []]].
    + discriminate E.
    + injection E as <- _. vm_compute in Henc. discriminate Henc.
Qed.

(** ** The sensor probe *)

Section SensorInfo.

Context {HW : Type} `{MMAL HW}.
Variable cameraName_size : nat.

Lemma strncpy_S (src : list ascii) (n : nat) :
  strncpy src (S n)
  = match src with
    | [] => NUL :: strncpy [] n
    | c :: src' =>
        if Ascii.eqb c NUL then NUL :: strncpy [] n
        else c :: strncpy src' n
    end.
Proof. reflexivity. Qed.

Lemma strncpy_not_nil (src : list ascii) (n : nat) :
  strncpy src (S n) <> [].
Proof.
  rewrite strncpy_S. destruct src as [| c src]; [discriminate |].
  destruct (Ascii.eqb c NUL); discriminate.
Qed.

Lemma removelast_cons (c : ascii) (l : list ascii) :
  l <> [] -> removelast (c :: l) = c :: removelast l.
Proof. destruct l; [congruence | reflexivity]. Qed.

Lemma removelast_strncpy (src : list ascii) (n : nat) :
  removelast (strncpy src (S n)) = strncpy src n.
Proof.
  revert src. induction n as [| n IH]; intros src.
  - rewrite strncpy_S. destruct src as [| c src]; [reflexivity |].
    now destruct (Ascii.eqb c NUL).
  - rewrite strncpy_S. rewrite (strncpy_S src n).
    destruct src as [| c src].
    + rewrite removelast_cons by apply strncpy_not_nil. now rewrite IH.
    + destruct (Ascii.eqb c NUL).
      * rewrite removelast_cons by apply strncpy_not_nil. now rewrite IH.
      * rewrite removelast_cons by apply strncpy_not_nil. now rewrite IH.
Qed.

Lemma c_str_strncpy_NUL (src : list ascii) (n : nat) :
  c_str (strncpy src n ++ [NUL]) = firstn n (c_str src).
Proof.
  revert src. induction n as [| n IH]; intros src.
  - reflexivity.
  - destruct src as [| c src]; [reflexivity |].
    cbn. destruct (Ascii.eqb c NUL) eqn:E; cbn.
    + reflexivity.
    + rewrite E. now rewrite IH.
Qed.

(** The name that ends up in a buffer of [n] bytes: the source string,
    cut to the [n - 1] characters that leave room for the terminator. *)
Lemma c_str_terminate_strncpy (src : list ascii) (n : nat) :
  c_str (terminate (strncpy src n)) = firstn (n - 1) (c_str src).
Proof.
  destruct n as [| n]; [reflexivity |].
  unfold terminate.
  destruct (strncpy src (S n)) as [| c l] eqn:E.
  - destruct src as [| c src]; cbn in E; [discriminate |].
    destruct (Ascii.eqb c NUL); discriminate.
  - rewrite <- E, removelast_strncpy, c_str_strncpy_NUL.
    now rewrite Nat.sub_succ, Nat.sub_0_r.
Qed.

(** [get_sensor_info] around a probe that has answered: an index that is
    not below the sensor count throws; an index below it returns with
    the size and the name of that sensor. *)
Lemma get_sensor_info_probed (this : MMALCamera) (h : HW)
  (r : Response) (info : MMAL_PARAMETER_CAMERA_INFO_T) :
  In (Call probe_query r) (trace (get_sensor_info cameraName_size this h)) ->
  nonzero r = false ->
  filled r = Some (PCameraInfo info) ->
  (num_cameras info <= uint32 (cameraNum this) ->
   outcome (get_sensor_info cameraName_size this h)
   = Thrown "Camera number not found.")
  /\ (uint32 (cameraNum this) < num_cameras info ->
      forall cam, cameras_at info (cameraNum this) = Some cam ->
      outcome (get_sensor_info cameraName_size this h)
      = Returned
          (set_cameraName
             (terminate (strncpy (camera_name cam) cameraName_size))
             (set_size (max_width cam) (max_height cam)
                (set_cameraName (strncpy OV5647 cameraName_size) this)))).
Proof.
  unfold get_sensor_info, probe_query.
  rewrite run_call. cbn [trace outcome fst snd].
  rewrite run_call. cbn [trace outcome fst snd].
  set (h1 := fst (mmal_call h (mmal_component_create camera_info))).
  set (r1 := snd (mmal_call h (mmal_component_create camera_info))).
  set (h2 := fst (mmal_call h1 _)).
  set (r2 := snd (mmal_call h1 _)).
  destruct (nonzero r2) eqn:E2.
  - rewrite bind_assoc, run_determinate.
    destruct (nonzero r1) eqn:E1; cbn [trace outcome fst snd].
    + intros Hin. absent.
    + rewrite bind_assoc, run_call. cbn [trace outcome fst snd].
      set (h3 := fst (mmal_call h2 _)).
      set (r3 := snd (mmal_call h2 _)).
      rewrite bind_assoc, run_throw_if.
      destruct (nonzero r3) eqn:E3; cbn [trace outcome fst snd].
      * intros [E | [E | [E | []]]] Hr Hf; try discriminate E.
        injection E as <-. congruence.
      * rewrite bind_assoc, run_determinate.
        destruct (camera_info_of (filled r3)) as [param |] eqn:Ep;
          cbn [trace outcome fst snd].
        2:{ intros [E | [E | [E | []]]] Hr Hf; try discriminate E.
            injection E as <-. rewrite Hf in Ep. discriminate Ep. }
        rewrite bind_assoc, run_throw_if.
        destruct (num_cameras param <=? uint32 (cameraNum _)) eqn:En;
          cbn [trace outcome fst snd].
        -- intros [E | [E | [E | []]]] Hr Hf; try discriminate E.
           injection E as <-. rewrite Hf in Ep. injection Ep as <-.
           apply Z.leb_le in En. cbn in En.
           split; [reflexivity | intros; lia].
        -- rewrite bind_assoc, run_determinate.
           destruct (cameras_at param (cameraNum _)) as [cam |] eqn:Ec;
             cbn [trace outcome fst snd].
           ++ rewrite run_ret, run_determinate, run_call.
              cbn [trace outcome fst snd].
              intros [E | [E | [E | [E | []]]]] Hr Hf; try discriminate E.
              injection E as <-. rewrite Hf in Ep. injection Ep as <-.
              apply Z.leb_gt in En. cbn in En, Ec.
              split; [intros; lia |].
              intros _ cam' Hc. rewrite Ec in Hc. injection Hc as <-.
              reflexivity.
           ++ intros [E | [E | [E | []]]] Hr Hf; try discriminate E.
              injection E as <-. rewrite Hf in Ep. injection Ep as <-.
              apply Z.leb_gt in En. cbn in En, Ec.
              split; [intros; lia |].
              intros _ cam' Hc. congruence.
  - rewrite run_ret, run_determinate.
    destruct (nonzero r1) eqn:E1; cbn [trace outcome fst snd].
    + intros Hin. absent.
    + rewrite run_call. cbn [trace outcome fst snd].
      intros Hin. absent.
Qed.

End SensorInfo.

(** Runs a method to its ends, one case for each way through it. *)
Ltac run_all :=
  repeat (first
    [ step
    | match goal with
      | |- context [if ?b then _ else _] => destruct b eqn:?
      | |- context [match ?o with Some _ => _ | None => _ end] =>
          destruct o eqn:?
      end ];
    cbn [trace outcome final fst snd]).

Section ProbeLifetime.

Context {HW : Type} `{MMAL HW}.
Variable cameraName_size : nat.

(** A [get_sensor_info] that returns has destroyed the probe. *)
Lemma probe_destroyed_on_return (this : MMALCamera) (h : HW)
  (this' : MMALCamera) :
  outcome (get_sensor_info cameraName_size this h) = Returned this' ->
  exists r,
    In (Call (mmal_component_destroy camera_info) r)
       (trace (get_sensor_info cameraName_size this h)).
Proof.
  unfold get_sensor_info. run_all; intros; try discriminate;
    eexists; cbn; eauto 8.
Qed.

(** A [get_sensor_info] that throws has not: the exception leaves
    through [throw_if], past the [mmal_component_destroy] at the end. *)
Lemma probe_kept_on_throw (this : MMALCamera) (h : HW) (what : string) :
  outcome (get_sensor_info cameraName_size this h) = Thrown what ->
  (exists r, nonzero r = false
             /\ In (Call (mmal_component_create camera_info) r)
                  (trace (get_sensor_info cameraName_size this h)))
  /\ ~ (exists r,
          In (Call (mmal_component_destroy camera_info) r)
             (trace (get_sensor_info cameraName_size this h))).
Proof.
  unfold get_sensor_info. run_all; intros; try discriminate;
    (split;
     [ exists (snd (mmal_call h (mmal_component_create camera_info)));
       split; [assumption | cbn; left; reflexivity]
     | intros ?; absent ]).
Qed.

End ProbeLifetime.

(** C6, where the code departs from it: when the probe does not answer,
    and when the camera index is not below the sensor count,
    [get_sensor_info] throws with the probe component created and never
    destroyed. *)
Theorem probe_not_destroyed_on_failure :
  let destroyed x :=
    exists r, In (Call (mmal_component_destroy camera_info) r) (trace x) in
  let created x :=
    In (Call (mmal_component_create camera_info) success) (trace x) in
  let x := get_sensor_info 16 (members 100000 double_1)
             (bench probe_query_fails) in
  let y := get_sensor_info 16 (set_cameraNum 1 (members 100000 double_1))
             (bench (firmware one_camera 100000)) in
  (outcome x = Thrown "Failed to get camera parameters."
   /\ created x /\ ~ destroyed x)
  /\ (outcome y = Thrown "Camera number not found."
      /\ created y /\ ~ destroyed y).
Proof.
  cbv zeta. repeat match goal with |- _ /\ _ => split end;
    try reflexivity;
    try (vm_compute; left; reflexivity);
    intros [r Hin]; vm_compute in Hin; absent.
Qed.

Section Selection.

Context {HW : Type} `{MMAL HW}.

(** C8, as amended. When the constructor has put the camera-info query
    to the probe and the probe has answered with a list of sensors, an
    index that is not below the sensor count ends the constructor with
    the exception "Camera number not found."; for an index below it, a
    constructor that returns has taken the width and the height of that
    sensor as the probe reported them, and its name, cut to what the
    name buffer holds. *)
Theorem ctor_adopts_probed_sensor (size : nat) (init : MMALCamera) (n : Z)
  (h : HW) (r : Response) (info : MMAL_PARAMETER_CAMERA_INFO_T) :
  let x := MMALCamera_ctor size init n h in
  In (Call probe_query r) (trace x) ->
  nonzero r = false ->
  filled r = Some (PCameraInfo info) ->
  (num_cameras info <= uint32 n ->
   outcome x = Thrown "Camera number not found.")
  /\ (uint32 n < num_cameras info ->
      forall cam built,
        cameras_at info n = Some cam ->
        outcome x = Returned built ->
        width built = max_width cam
        /\ height built = max_height cam
        /\ c_str (cameraName built)
           = firstn (size - 1) (c_str (camera_name cam))).
Proof.
  cbv zeta. intros Hin Hr Hf.
  unfold MMALCamera_ctor, MMALComponent_ctor, enable_port_with_callback in *.
  repeat match type of Hin with
    | In _ (trace (bind ?m _ _)) =>
        lazymatch m with
        | get_sensor_info _ _ => fail
        | _ =>
            apply pass_bind in Hin;
            [ destruct Hin as (? & _ & Hin & ->)
            | solve [ unfold probe_query;
                      emits_by ltac:(intros; discriminate) ] ]
        end
    end.
  match type of Hin with
  | In _ (trace (bind _ ?k ?h')) => set (rest := k) in *; set (h1 := h') in *
  end.
  assert (Hrest : forall this, emits_only (fun e => e <> Call probe_query r)
                                 (rest this)).
  { intros this. subst rest. cbv beta.
    unfold set_capture_port_format, probe_query.
    emits_by ltac:(intros; discriminate). }
  assert (Hkeep : forall this,
             returns_only
               (fun built => width built = width this
                             /\ height built = height this
                             /\ cameraName built = cameraName this)
               (rest this)).
  { intros this. subst rest. cbv beta.
    repeat (apply returns_only_bind; intros ?).
    apply returns_only_ret. cbn. auto. }
  rewrite run_bind in Hin. rewrite run_bind.
  destruct (outcome (get_sensor_info size (set_cameraNum n init) h1))
    as [this1 | what | | what] eqn:Eg; cbn [trace outcome fst snd] in *.
  - apply in_app_or in Hin. destruct Hin as [Hin | Hin].
    + destruct (get_sensor_info_probed size _ _ _ _ Hin Hr Hf) as [A B].
      cbn [cameraNum set_cameraNum] in A, B. split.
      * intros Hle. rewrite (A Hle) in Eg. discriminate Eg.
      * intros Hlt cam built Hc Hb.
        rewrite (B Hlt cam Hc) in Eg. injection Eg as <-.
        apply Hkeep in Hb. cbn in Hb. destruct Hb as (-> & -> & ->).
        now rewrite c_str_terminate_strncpy.
    + exfalso. now apply (emits_only_in _ _ _ _ (Hrest this1)) in Hin.
  - destruct (get_sensor_info_probed size _ _ _ _ Hin Hr Hf) as [A B].
    cbn [cameraNum set_cameraNum] in A, B. split.
    + intros Hle. rewrite (A Hle) in Eg. now rewrite Eg.
    + intros; discriminate.
  - destruct (get_sensor_info_probed size _ _ _ _ Hin Hr Hf) as [A B].
    cbn [cameraNum set_cameraNum] in A, B. split.
    + intros Hle. rewrite (A Hle) in Eg. discriminate Eg.
    + intros; discriminate.
  - destruct (get_sensor_info_probed size _ _ _ _ Hin Hr Hf) as [A B].
    cbn [cameraNum set_cameraNum] in A, B. split.
    + intros Hle. rewrite (A Hle) in Eg. discriminate Eg.
    + intros; discriminate.
Qed.

End Selection.

(** C8 on the bench: one IMX477 is probed; index 0 adopts it, index 1 is
    refused. *)
Lemma ctor_adopts_imx477 :
  let h := bench (firmware one_camera 100000) in
  let init := members 100000 double_1 in
  let answer := gives (PCameraInfo one_camera) in
  In (Call probe_query answer) (trace (MMALCamera_ctor 16 init 0 h))
  /\ (exists built,
        outcome (MMALCamera_ctor 16 init 0 h) = Returned built
        /\ width built = 4056
        /\ height built = 3040
        /\ c_str (cameraName built) = list_ascii_of_string "imx477")
  /\ In (Call probe_query answer) (trace (MMALCamera_ctor 16 init 1 h))
  /\ outcome (MMALCamera_ctor 16 init 1 h) = Thrown "Camera number not found.".
Proof.
  cbv zeta.
  assert (Hin0 : In (Call probe_query (gives (PCameraInfo one_camera)))
                   (trace (MMALCamera_ctor 16 (members 100000 double_1) 0
                             (bench (firmware one_camera 100000))))).
  { vm_compute. repeat (first [left; reflexivity | right]). }
  assert (Hin1 : In (Call probe_query (gives (PCameraInfo one_camera)))
                   (trace (MMALCamera_ctor 16 (members 100000 double_1) 1
                             (bench (firmware one_camera 100000))))).
  { vm_compute. repeat (first [left; reflexivity | right]). }
  split; [exact Hin0 |]. split; [| split; [exact Hin1 |]].
  - destruct (ctor_adopts_probed_sensor 16 (members 100000 double_1) 0
                (bench (firmware one_camera 100000))
                (gives (PCameraInfo one_camera)) one_camera
                Hin0 eq_refl eq_refl) as [_ B].
    eexists. split; [vm_compute; reflexivity |].
    apply (B ltac:(vm_compute; reflexivity) imx477); reflexivity.
  - destruct (ctor_adopts_probed_sensor 16 (members 100000 double_1) 1
                (bench (firmware one_camera 100000))
                (gives (PCameraInfo one_camera)) one_camera
                Hin1 eq_refl eq_refl) as [A _].
    apply A. vm_compute. discriminate.
Defined.

(** C8, as stated, fails on the resolution: a probed sensor whose maximum
    resolution is reported as 0 x 0 is adopted as it is, and the
    constructor returns a camera of width 0 and height 0. *)
Lemma blank_sensor_is_adopted :
  let h := bench (firmware one_blank_camera 100000) in
  let x := MMALCamera_ctor 16 (members 100000 double_1) 0 h in
  In (Call probe_query (gives (PCameraInfo one_blank_camera))) (trace x)
  /\ uint32 0 < num_cameras one_blank_camera
  /\ exists built,
       outcome x = Returned built
       /\ ~ (width built <> 0 /\ height built <> 0).
Proof.
  cbv zeta. split; [| split].
  - vm_compute. repeat (first [left; reflexivity | right]).
  - reflexivity.
  - eexists. split; [vm_compute; reflexivity |].
    intros [Hw _]. apply Hw. reflexivity.
Qed.

(** * Further properties of the methods *)

(** ** A run of [set_camera_parameters] that returns *)

Section Applied.

Context {HW : Type} `{MMAL HW}.
Variable USE_ISO : bool.

(** The whole of a returning run: every call in its place, every status a
    success, the two warnings where their tests say so. *)
Lemma returned_run (this : MMALCamera) (h : HW) :
  outcome (set_camera_parameters USE_ISO this h) = Returned tt ->
  exists r1 r2 r3 r0 r4 r5 r6 size r7 r8 r9 r10 r11 r12 actual r13 r14 n r15,
    let low := fst (exposure_range this) in
    let high := snd (exposure_range this) in
    let back := fps_range_of (filled r14) low high in
    trace (set_camera_parameters USE_ISO this h) =
      Call (mmal_port_parameter_set (control camera) MMAL_PARAMETER_AWB_MODE
              (PAwbMode MMAL_PARAM_AWBMODE_AUTO)) r1
      :: Call (mmal_port_parameter_set_rational (control camera)
                 MMAL_PARAMETER_SATURATION {| num := 10; den := 0 |}) r2
      :: Call (mmal_port_parameter_set_rational (control camera)
                 MMAL_PARAMETER_DIGITAL_GAIN {| num := 1; den := 1 |}) r3
      :: (if USE_ISO
          then [Call (mmal_port_parameter_set_uint32 (control camera)
                        MMAL_PARAMETER_ISO (iso this)) r0;
                Stderr (msg_iso (iso this))]
          else [])
      ++ Call (mmal_port_parameter_set_rational (control camera)
                 MMAL_PARAMETER_BRIGHTNESS {| num := 50; den := 100 |}) r4
      :: Call (mmal_port_parameter_set (control camera)
                 MMAL_PARAMETER_EXPOSURE_MODE
                 (PExposureMode MMAL_PARAM_EXPOSUREMODE_OFF)) r5
      :: Call (mmal_port_parameter_set (control camera)
                 MMAL_PARAMETER_INPUT_CROP (PInputCrop 0 0 4096 4096)) r6
      :: Call (store_buffer_size (port camera MMAL_CAMERA_CAPTURE_PORT) size) r7
      :: Call (mmal_port_parameter_set_boolean
                 (output camera MMAL_CAMERA_VIDEO_PORT)
                 MMAL_PARAMETER_ZERO_COPY MMAL_TRUE) r8
      :: Call (mmal_port_parameter_set_boolean
                 (output camera MMAL_CAMERA_CAPTURE_PORT)
                 MMAL_PARAMETER_ENABLE_RAW_CAPTURE 1) r9
      :: Call (mmal_port_parameter_set_uint32 (control camera)
                 MMAL_PARAMETER_CAPTURE_STATS_PASS MMAL_TRUE) r10
      :: Call (mmal_port_parameter_set_uint32 (control camera)
                 MMAL_PARAMETER_SHUTTER_SPEED (shutter_speed this)) r11
      :: Call (mmal_port_parameter_get_uint32 (control camera)
                 MMAL_PARAMETER_SHUTTER_SPEED) r12
      :: (if shutter_speed_differs (shutter_speed this) actual
          then [Stderr (msg_shutter_mismatch (shutter_speed this) actual)]
          else [])
      ++ Stderr (msg_setting_fps low high)
      :: Call (mmal_port_parameter_set
                 (output camera MMAL_CAMERA_CAPTURE_PORT)
                 MMAL_PARAMETER_FPS_RANGE (PFpsRange low high)) r13
      :: Call (mmal_port_parameter_get
                 (output camera MMAL_CAMERA_CAPTURE_PORT)
                 MMAL_PARAMETER_FPS_RANGE (PFpsRange low high)) r14
      :: (if rational_differs (fst back) low || rational_differs (snd back) high
          then [Stderr (msg_fps_mismatch (fst back) (snd back))]
          else [])
      ++ [Call (mmal_port_parameter_set_rational (control camera)
                  MMAL_PARAMETER_ANALOG_GAIN {| num := n; den := 65536 |}) r15;
          Stderr (msg_gain n 65536)]
    /\ Forall (fun r => nonzero r = false)
         [r1; r2; r3; r4; r5; r6; r8; r9; r10; r11; r12; r13; r14; r15]
    /\ (USE_ISO = true -> nonzero r0 = false)
    /\ uint32_of (filled r12) = Some actual
    /\ double_to_int32 (double_mul (gain this) double_65536) = Some n.
Proof.
  unfold set_camera_parameters, get_shutter_speed.
  destruct USE_ISO; walk; try discriminate;
    cbn [outcome trace fprintf_stderr fst snd]; intros _.
  - do 19 eexists. cbv zeta. split; [reflexivity |].
    split; [repeat (apply Forall_cons; [assumption |]); apply Forall_nil |].
    split; [intros _; assumption |]. split; [assumption | reflexivity].
  - do 3 eexists. exists success. do 15 eexists. cbv zeta.
    split; [reflexivity |].
    split; [repeat (apply Forall_cons; [assumption |]); apply Forall_nil |].
    split; [discriminate |]. split; [assumption | reflexivity].
Qed.

End Applied.

(** ** What [set_camera_parameters] does and does not do *)

Section ParameterTraffic.

Context {HW : Type} `{MMAL HW}.
Variable USE_ISO : bool.

(** X1. [set_camera_parameters] only sets and gets parameters on the
    control, video and capture ports of the camera and stores one buffer
    size: it never creates, enables, disables or destroys a component or a
    port, never commits a format, and never addresses the preview port or
    the probe. *)
Theorem parameters_only_traffic (this : MMALCamera) (h : HW) :
  Forall parameter_traffic (trace (set_camera_parameters USE_ISO this h)).
Proof.
  revert h.
  change (emits_only parameter_traffic (set_camera_parameters USE_ISO this)).
  unfold set_camera_parameters, get_shutter_speed.
  emits_by ltac:(intros; cbn; unfold parameter_port; auto).
Qed.

(** X2. Every parameter that [set_camera_parameters] sets, other than the
    FPS range and the analog gain, is set on a fixed port to a value that
    no answer of the vendor can change: white balance auto, saturation
    10/0, digital gain 1/1, brightness 50/100, exposure mode off, crop
    (0, 0, 4096, 4096), zero copy on the video port, raw capture on the
    capture port, statistics pass 1, the shutter speed of the object, and
    the ISO of the object in a build with [USE_ISO] only.  No other
    parameter, the capture flag in particular, is ever set. *)
Theorem parameters_have_fixed_values (this : MMALCamera) (h : HW) :
  Forall (fun e => forall p id v r,
            e = Call (mmal_port_parameter_set p id v) r ->
            id <> MMAL_PARAMETER_FPS_RANGE ->
            id <> MMAL_PARAMETER_ANALOG_GAIN ->
            fixed_setting USE_ISO this id = Some (p, v))
    (trace (set_camera_parameters USE_ISO this h)).
Proof.
  revert h.
  change (emits_only
    (fun e => forall p id v r,
       e = Call (mmal_port_parameter_set p id v) r ->
       id <> MMAL_PARAMETER_FPS_RANGE ->
       id <> MMAL_PARAMETER_ANALOG_GAIN ->
       fixed_setting USE_ISO this id = Some (p, v))
    (set_camera_parameters USE_ISO this)).
  unfold set_camera_parameters, get_shutter_speed.
  emits_by ltac:(other_call; try reflexivity; try congruence).
Qed.

(** X3. A run of [set_camera_parameters] never goes on after a failure: in
    a run that returns every call has come back with success, and a run
    that throws has thrown right after the one call that failed, which is
    the last thing it did. *)
Theorem parameters_stop_at_the_failed_call (this : MMALCamera) (h : HW) :
  let x := set_camera_parameters USE_ISO this h in
  (outcome x = Returned tt -> Forall not_a_failure (trace x))
  /\ (forall what, outcome x = Thrown what ->
      exists t c r,
        trace x = t ++ [Call c r]
        /\ Forall not_a_failure t
        /\ nonzero r = true).
Proof.
  cbv zeta. unfold set_camera_parameters, get_shutter_speed.
  destruct USE_ISO; walk;
    cbn [outcome trace fprintf_stderr fst snd];
    (split; [intros E | intros what E]; try discriminate E);
    repeat match goal with
      | |- context [if ?b then [_] else []] => destruct b
      end;
    cbn [app];
    try (repeat (apply Forall_cons; [cbn; first [assumption | exact I] |]);
         apply Forall_nil);
    match goal with
    | |- exists t c r, ?L = _ /\ _ => exists (removelast L)
    end;
    cbn [removelast]; do 2 eexists;
    (split; [reflexivity |]);
    (split; [| assumption]);
    repeat (apply Forall_cons; [cbn; first [assumption | exact I] |]);
    apply Forall_nil.
Qed.

End ParameterTraffic.

(** ** The warnings and the order of a returning run *)

Section Returning.

Context {HW : Type} `{MMAL HW}.
Variable USE_ISO : bool.

Lemma rational_differs_false (a b : MMAL_RATIONAL_T) :
  rational_differs a b = false <-> a = b.
Proof.
  unfold rational_differs. destruct a as [n1 d1], b as [n2 d2]; cbn.
  rewrite orb_false_iff, !negb_false_iff, !Z.eqb_eq. split.
  - intros [-> ->]; reflexivity.
  - intros E; inversion E; auto.
Qed.

Lemma uint32_of_Some (o : option Param) (v : Z) :
  uint32_of o = Some v -> o = Some (PUint32 v).
Proof.
  destruct o as [[] |]; cbn; intros E; try discriminate.
  now injection E as ->.
Qed.

(** Membership in a trace written out event by event. *)
Ltac sift :=
  repeat match goal with
    | H : In _ (_ :: _) |- _ => destruct H as [H | H]
    | H : In _ (_ ++ _) |- _ => apply in_app_or in H; destruct H as [H | H]
    | H : In _ (if ?b then _ else _) |- _ => destruct b eqn:?
    | H : In _ [] |- _ => destruct H
    | H : Call _ _ = Stderr _ |- _ => discriminate H
    | H : Stderr _ = Call _ _ |- _ => discriminate H
    | H : Call _ _ = Call _ _ |- _ =>
        first [ discriminate H | injection H as ? ?; subst ]
    | H : Stderr _ = Stderr _ |- _ =>
        first [ discriminate H | injection H as ? ?; subst
              | injection H as ?; subst ]
    end.

(** X4. In a run that returns, with a requested shutter speed between
    100000 and 2^32 - 100001 microseconds, the mismatch warning is printed
    exactly when the value read back differs from the requested one by
    more than 100000; it names those two values, and no other mismatch is
    printed. *)
Theorem shutter_warning_in_range (this : MMALCamera) (h : HW) :
  let x := set_camera_parameters USE_ISO this h in
  let s := shutter_speed this in
  outcome x = Returned tt ->
  100000 <= s <= 2 ^ 32 - 1 - 100000 ->
  exists r actual,
    In (Call (mmal_port_parameter_get_uint32 (control camera)
                MMAL_PARAMETER_SHUTTER_SPEED) r) (trace x)
    /\ filled r = Some (PUint32 actual)
    /\ (In (Stderr (msg_shutter_mismatch s actual)) (trace x)
        <-> 100000 < Z.abs (actual - s))
    /\ (forall a b, In (Stderr (msg_shutter_mismatch a b)) (trace x) ->
        a = s /\ b = actual).
Proof.
  cbv zeta. intros Hret Hs.
  destruct (returned_run USE_ISO this h Hret)
    as (r1 & r2 & r3 & r0 & r4 & r5 & r6 & size & r7 & r8 & r9 & r10 & r11
        & r12 & actual & r13 & r14 & n & r15 & Ht & _ & _ & Hact & _).
  cbv zeta in Ht. rewrite Ht. clear Ht Hret.
  exists r12, actual. split; [| split; [| split]].
  - do 3 right. apply in_or_app. right. cbn. auto 12.
  - now apply uint32_of_Some.
  - rewrite <- (shutter_speed_differs_in_range _ actual Hs). split.
    + intros Hin. destruct USE_ISO; sift; reflexivity.
    + intros Hd. rewrite Hd.
      do 3 right. apply in_or_app. right. do 9 right. left. reflexivity.
  - intros a b Hin. destruct USE_ISO; sift; auto.
Qed.

(** X5. In a run that returns, with a requested shutter speed below
    100000 microseconds, the mismatch warning is printed whatever 32-bit
    value is read back, the requested one included: the lower bound of the
    test has wrapped around. *)
Theorem shutter_warning_below_range (this : MMALCamera) (h : HW) :
  let x := set_camera_parameters USE_ISO this h in
  let s := shutter_speed this in
  outcome x = Returned tt ->
  0 <= s < 100000 ->
  exists r actual,
    In (Call (mmal_port_parameter_get_uint32 (control camera)
                MMAL_PARAMETER_SHUTTER_SPEED) r) (trace x)
    /\ filled r = Some (PUint32 actual)
    /\ (0 <= actual < 2 ^ 32 ->
        In (Stderr (msg_shutter_mismatch s actual)) (trace x)).
Proof.
  cbv zeta. intros Hret Hs.
  destruct (returned_run USE_ISO this h Hret)
    as (r1 & r2 & r3 & r0 & r4 & r5 & r6 & size & r7 & r8 & r9 & r10 & r11
        & r12 & actual & r13 & r14 & n & r15 & Ht & _ & _ & Hact & _).
  cbv zeta in Ht. rewrite Ht. clear Ht Hret.
  exists r12, actual. split; [| split].
  - do 3 right. apply in_or_app. right. cbn. auto 12.
  - now apply uint32_of_Some.
  - intros Ha. rewrite (shutter_speed_differs_below _ _ Hs Ha).
    do 3 right. apply in_or_app. right. do 9 right. left. reflexivity.
Qed.

(** X6. In a run that returns, the FPS range is read back right after it
    is set, and the FPS warning is printed exactly when what the vendor
    reads back is not, numerator for numerator and denominator for
    denominator, the range that was set; the run returns all the same. *)
Theorem fps_warning_on_return (this : MMALCamera) (h : HW) :
  let x := set_camera_parameters USE_ISO this h in
  let low := fst (exposure_range this) in
  let high := snd (exposure_range this) in
  outcome x = Returned tt ->
  exists r lo hi,
    In (Call (mmal_port_parameter_get (output camera MMAL_CAMERA_CAPTURE_PORT)
                MMAL_PARAMETER_FPS_RANGE (PFpsRange low high)) r) (trace x)
    /\ fps_range_of (filled r) low high = (lo, hi)
    /\ (In (Stderr (msg_fps_mismatch lo hi)) (trace x)
        <-> (lo, hi) <> (low, high))
    /\ (forall a b, In (Stderr (msg_fps_mismatch a b)) (trace x) ->
        a = lo /\ b = hi).
Proof.
  cbv zeta. intros Hret.
  destruct (returned_run USE_ISO this h Hret)
    as (r1 & r2 & r3 & r0 & r4 & r5 & r6 & size & r7 & r8 & r9 & r10 & r11
        & r12 & actual & r13 & r14 & n & r15 & Ht & _ & _ & _ & _).
  cbv zeta in Ht. rewrite Ht. clear Ht Hret.
  set (low := fst (exposure_range this)) in *.
  set (high := snd (exposure_range this)) in *.
  destruct (fps_range_of (filled r14) low high) as [lo hi] eqn:Eb.
  cbn [fst snd].
  exists r14, lo, hi. split; [| split; [exact Eb | split]].
  - do 3 right. apply in_or_app. right. do 9 right.
    apply in_or_app. right. cbn. auto.
  - assert (Hd : rational_differs lo low || rational_differs hi high = false
                 <-> (lo, hi) = (low, high)).
    { rewrite orb_false_iff, !rational_differs_false. split.
      - intros [-> ->]; reflexivity.
      - intros E; inversion E; auto. }
    split.
    + intros Hin E. apply Hd in E.
      destruct USE_ISO; sift; congruence.
    + intros Hne.
      assert (E : rational_differs lo low || rational_differs hi high = true).
      { apply not_false_iff_true. intros E. now apply Hd in E. }
      rewrite E.
      do 3 right. apply in_or_app. right. do 9 right.
      apply in_or_app. right. do 3 right. left. reflexivity.
  - intros a b Hin. destruct USE_ISO; sift; auto.
Qed.

(** X7. In a run that returns, the shutter speed is set and read back
    before the FPS range is set and read back, and the analog gain is the
    last parameter set: between these calls the run only prints. *)
Theorem parameters_in_order (this : MMALCamera) (h : HW) :
  let x := set_camera_parameters USE_ISO this h in
  let low := fst (exposure_range this) in
  let high := snd (exposure_range this) in
  outcome x = Returned tt ->
  exists before r1 r2 between r3 r4 after n r5,
    trace x =
      before
      ++ Call (mmal_port_parameter_set_uint32 (control camera)
                 MMAL_PARAMETER_SHUTTER_SPEED (shutter_speed this)) r1
      :: Call (mmal_port_parameter_get_uint32 (control camera)
                 MMAL_PARAMETER_SHUTTER_SPEED) r2
      :: between
      ++ Call (mmal_port_parameter_set (output camera MMAL_CAMERA_CAPTURE_PORT)
                 MMAL_PARAMETER_FPS_RANGE (PFpsRange low high)) r3
      :: Call (mmal_port_parameter_get (output camera MMAL_CAMERA_CAPTURE_PORT)
                 MMAL_PARAMETER_FPS_RANGE (PFpsRange low high)) r4
      :: after
      ++ [Call (mmal_port_parameter_set_rational (control camera)
                  MMAL_PARAMETER_ANALOG_GAIN {| num := n; den := 65536 |}) r5;
          Stderr (msg_gain n 65536)]
    /\ Forall is_print between
    /\ Forall is_print after.
Proof.
  cbv zeta. intros Hret.
  destruct (returned_run USE_ISO this h Hret)
    as (r1 & r2 & r3 & r0 & r4 & r5 & r6 & size & r7 & r8 & r9 & r10 & r11
        & r12 & actual & r13 & r14 & n & r15 & Ht & _ & _ & _ & _).
  cbv zeta in Ht. rewrite Ht. clear Ht Hret.
  match goal with
  | |- exists before r1 r2 between r3 r4 after n r5,
         ?a :: ?b :: ?c :: ?I ++ ?x4 :: ?x5 :: ?x6 :: ?x7 :: ?x8 :: ?x9
           :: ?x10 :: _ :: _ :: ?W ++ ?P :: _ :: _ :: ?M ++ _ = _ /\ _ =>
      exists (a :: b :: c :: I ++ [x4; x5; x6; x7; x8; x9; x10]), r11, r12,
        (W ++ [P]), r13, r14, M, n, r15
  end.
  split; [| split].
  - cbn [app]. rewrite <- 2 app_assoc. reflexivity.
  - apply Forall_app. split.
    + destruct (shutter_speed_differs _ _); repeat constructor.
    + repeat constructor.
  - destruct (_ || _); repeat constructor.
Qed.

End Returning.

(** ** The gain that is committed *)

Section GainError.

(** What [static_cast<int32_t>] yields fits 32 bits. *)
Lemma double_to_int32_range (x : spec_float) (n : Z) :
  double_to_int32 x = Some n -> - 2 ^ 31 <= n < 2 ^ 31.
Proof.
  destruct x as [s | s | | s m e]; cbn -[Z.pow]; try discriminate.
  - intros E; injection E as <-. lia.
  - match goal with
    | |- (if ?c then _ else _) = _ -> _ => destruct c eqn:Ec
    end; [| discriminate].
    intros E; injection E as <-.
    apply andb_prop in Ec. destruct Ec as [E1 E2].
    apply Z.leb_le in E1. apply Z.ltb_lt in E2. lia.
Qed.

(** X8. For a gain that is a positive normal [double] below 32768, the
    numerator computed for the analog gain is a non-negative 32-bit
    integer, and the rational committed, numerator over 65536, never
    exceeds the gain and falls short of it by less than 1/65536. *)
Theorem gain_is_within_one_step (g : spec_float) (n : Z) :
  gain_in_range g ->
  double_to_int32 (double_mul g double_65536) = Some n ->
  0 <= n < 2 ^ 31
  /\ (inject_Z n / 65536 <= SF2Q g)%Q
  /\ (SF2Q g < inject_Z (n + 1) / 65536)%Q.
Proof.
  intros Hg Hn.
  assert (Hpos : (0 <= SF2Q g * 65536)%Q).
  { destruct Hg as (_ & Hclass & _).
    destruct g as [s | s | | s m e]; try (destruct s; discriminate);
      try discriminate.
    unfold SFclassify in Hclass.
    destruct s; [destruct (Z.pos (digits2_pos m) =? prec); discriminate |].
    unfold SF2Q. apply Qmult_le_0_compat; [| discriminate].
    apply Qmult_le_0_compat; [discriminate |].
    apply Qpower_0_le. discriminate. }
  pose proof (double_to_int32_range _ _ Hn) as Hrange.
  rewrite (gain_numerator g Hg) in Hn. injection Hn as <-.
  unfold integer_part in *.
  replace (Qle_bool 0 (SF2Q g * 65536)) with true in *
    by (symmetry; now apply Qle_bool_iff).
  pose proof (Qfloor_le (SF2Q g * 65536)) as Hlo.
  pose proof (Qlt_floor (SF2Q g * 65536)) as Hhi.
  split; [| split].
  - split; [| lia].
    rewrite <- (Qfloor_Z 0). now apply Qfloor_resp_le.
  - apply Qle_shift_div_r; [reflexivity | assumption].
  - apply Qlt_shift_div_l; [reflexivity | assumption].
Qed.

End GainError.

(** ** Starting a capture, tearing down, committing the format *)

Section Exposure.

Context {HW : Type} `{MMAL HW}.

(** X9. [capture] enables the component first and raises the capture flag
    of the capture port, to 1, exactly when that succeeded; the first
    failing step ends it with its exception, and a capture that returns
    returns 0. *)
Theorem capture_stops_at_first_failure (this : MMALCamera) (h : HW) :
  let enable := mmal_component_enable camera in
  let start := mmal_port_parameter_set_boolean
                 (output camera MMAL_CAMERA_CAPTURE_PORT)
                 MMAL_PARAMETER_CAPTURE 1 in
  let r1 := snd (mmal_call h enable) in
  let h1 := fst (mmal_call h enable) in
  let r2 := snd (mmal_call h1 start) in
  hd_error (trace (capture this h)) = Some (Call enable r1)
  /\ ((exists r, In (Call start r) (trace (capture this h)))
      <-> nonzero r1 = false)
  /\ (forall p v r,
        In (Call (mmal_port_parameter_set p MMAL_PARAMETER_CAPTURE v) r)
          (trace (capture this h)) ->
        p = output camera MMAL_CAMERA_CAPTURE_PORT /\ v = PBoolean 1)
  /\ outcome (capture this h) =
       if nonzero r1 then Thrown "camera component couldn't be enabled"
       else if nonzero r2 then Thrown "Failed to start capture"
       else Returned 0.
Proof.
  cbv zeta. unfold capture. rewrite run_call, run_throw_if.
  destruct (nonzero (snd (mmal_call h _))) eqn:E1; cbn.
  - traces.
  - rewrite run_fprintf, run_call, run_throw_if.
    destruct (nonzero (snd (mmal_call _ (mmal_port_parameter_set_boolean
                                           _ _ _)))); cbn;
      repeat match goal with
        | |- _ /\ _ => split
        | |- _ <-> _ => split
        end;
      try reflexivity; eauto 6;
      intros p v r [E | [E | [E | []]]]; try discriminate E;
      injection E as <- <- _; auto.
Qed.

(** X10. The destructor makes at most two calls and nothing else: one
    disable of the capture port, then one disable of the control port,
    each at most once and in that order. *)
Theorem dtor_disables_in_order (h : HW) :
  exists t1 t2,
    trace (MMALCamera_dtor h) = t1 ++ t2
    /\ (t1 = []
        \/ exists r,
             t1 = [Call (mmal_port_disable
                           (output camera MMAL_CAMERA_CAPTURE_PORT)) r])
    /\ (t2 = []
        \/ exists r, t2 = [Call (mmal_port_disable (control camera)) r]).
Proof.
  assert (Hshape : forall t1 t2 : list Event,
            (t1 = [] \/ exists r,
               t1 = [Call (mmal_port_disable
                             (output camera MMAL_CAMERA_CAPTURE_PORT)) r]) ->
            (t2 = [] \/ exists r,
               t2 = [Call (mmal_port_disable (control camera)) r]) ->
            exists u1 u2,
              t1 ++ t2 = u1 ++ u2
              /\ (u1 = [] \/ exists r,
                    u1 = [Call (mmal_port_disable
                                  (output camera MMAL_CAMERA_CAPTURE_PORT)) r])
              /\ (u2 = [] \/ exists r,
                    u2 = [Call (mmal_port_disable (control camera)) r]))
    by (intros t1 t2 H1 H2; exists t1, t2; auto).
  unfold MMALCamera_dtor. rewrite run_noexcept, run_read.
  destruct (is_enabled h (output camera MMAL_CAMERA_CAPTURE_PORT)).
  - rewrite bind_assoc, run_call, run_throw_if.
    destruct (nonzero (snd (mmal_call h _))); cbn [trace outcome fst snd].
    + apply (Hshape [_] []); eauto.
    + rewrite run_read.
      destruct (is_enabled _ (control camera)); cbn [trace outcome fst snd].
      * unfold bind, call, throw_if.
        destruct (mmal_call _ (mmal_port_disable (control camera)))
          as [h2 r2]; cbn.
        destruct (nonzero r2); cbn; apply (Hshape [_] [_]); eauto.
      * apply (Hshape [_] []); eauto.
  - rewrite run_ret, run_read.
    destruct (is_enabled h (control camera)); cbn.
    + unfold bind, call, throw_if.
      destruct (mmal_call h (mmal_port_disable (control camera)))
        as [h2 r2]; cbn.
      destruct (nonzero r2); cbn; apply (Hshape [] [_]); eauto.
    + apply (Hshape [] []); eauto.
Qed.

(** X11. The exchange of RGB24 and BGR24 undoes itself: applied twice to
    any encoding, for a sensor of either kind, it gives the encoding
    back; and it changes no encoding other than those two. *)
Theorem rgb_order_compensate_twice (fixed : bool) (enc : Z) :
  rgb_order_compensate fixed (rgb_order_compensate fixed enc) = enc
  /\ (enc <> MMAL_ENCODING_RGB24 -> enc <> MMAL_ENCODING_BGR24 ->
      rgb_order_compensate fixed enc = enc).
Proof.
  unfold rgb_order_compensate. destruct fixed; cbn [negb].
  - auto.
  - destruct (enc =? MMAL_ENCODING_RGB24) eqn:E1.
    + apply Z.eqb_eq in E1. subst enc. split; [reflexivity | congruence].
    + destruct (enc =? MMAL_ENCODING_BGR24) eqn:E2.
      * apply Z.eqb_eq in E2. subst enc. split; [reflexivity | congruence].
      * rewrite E1, E2. auto.
Qed.

Lemma int32_small (z : Z) : 0 <= z < 2 ^ 31 -> int32 z = z.
Proof. intros Hz. unfold int32. rewrite Z.mod_small; lia. Qed.

Lemma int32_large (z : Z) : 2 ^ 31 <= z < 2 ^ 32 -> int32 z = z - 2 ^ 32.
Proof.
  intros Hz. unfold int32.
  replace ((z + 2 ^ 31) mod 2 ^ 32) with (z + 2 ^ 31 - 2 ^ 32); [lia |].
  apply Z.mod_unique with (q := 1); lia.
Qed.

(** X12. [set_capture_port_format] asks for the RGB order and then commits
    one format: the frame is the width and height of the object, the frame
    rate 0/1, the pixel aspect 1/1, and the crop starts at the origin.
    The crop is the full frame as long as width and height are below
    2^31; from 2^31 on the signed crop field holds the size less 2^32, a
    negative number.  It throws exactly when the commit fails. *)
Theorem capture_format_fields (this : MMALCamera) (h : HW) :
  let cap := output camera MMAL_CAMERA_CAPTURE_PORT in
  let x := set_capture_port_format this h in
  exists r1 fmt r2,
    trace x = [Call (mmal_util_rgb_order_fixed cap) r1;
               Call (mmal_port_format_commit cap fmt) r2]
    /\ video_width fmt = width this
    /\ video_height fmt = height this
    /\ (crop_x fmt, crop_y fmt) = (0, 0)
    /\ frame_rate fmt = {| num := 0; den := 1 |}
    /\ par fmt = {| num := 1; den := 1 |}
    /\ (0 <= width this < 2 ^ 31 -> crop_width fmt = width this)
    /\ (0 <= height this < 2 ^ 31 -> crop_height fmt = height this)
    /\ (2 ^ 31 <= width this < 2 ^ 32 ->
        crop_width fmt = width this - 2 ^ 32)
    /\ (2 ^ 31 <= height this < 2 ^ 32 ->
        crop_height fmt = height this - 2 ^ 32)
    /\ outcome x =
         if nonzero r2
         then Thrown "camera capture port format couldn't be set"
         else Returned tt.
Proof.
  cbv zeta. unfold set_capture_port_format.
  rewrite run_read, run_call. unfold bind, call, throw_if.
  destruct (mmal_call _ (mmal_port_format_commit _ _)) as [h2 r2].
  cbn [trace outcome fst snd app].
  do 3 eexists. split.
  - destruct (nonzero r2); reflexivity.
  - cbn [video_width video_height crop_x crop_y crop_width crop_height
         frame_rate par].
    repeat match goal with |- _ /\ _ => split end;
      try reflexivity;
      try (intros; now apply int32_small);
      try (intros; now apply int32_large).
    destruct (nonzero r2); reflexivity.
Qed.

End Exposure.

(** ** More on the sensor probe *)

Section Probe.

Context {HW : Type} `{MMAL HW}.
Variable cameraName_size : nat.

(** X13. On a firmware that accepts the undersized camera-info query,
    [get_sensor_info] returns the OV5647 defaults, 2592 x 1944 and the
    name "OV5647" as far as the buffer holds it, without querying the
    probe and without any check of the camera index. *)
Theorem older_firmware_defaults (this this' : MMALCamera) (h : HW)
  (r : Response) :
  let x := get_sensor_info cameraName_size this h in
  outcome x = Returned this' ->
  In (Call (mmal_port_parameter_get (control camera)
              MMAL_PARAMETER_CAMERA_INFO (PHeader 4)) r) (trace x) ->
  nonzero r = false ->
  width this' = 2592
  /\ height this' = 1944
  /\ cameraName this' = strncpy OV5647 cameraName_size
  /\ cameraNum this' = cameraNum this
  /\ ~ (exists r', In (Call probe_query r') (trace x)).
Proof.
  cbv zeta. unfold get_sensor_info, probe_query.
  run_all; intros Hret Hin Hr; try discriminate Hret;
    injection Hret as <-; cbn [trace ret snd] in Hin;
    repeat match goal with
      | H : In _ (_ :: _) |- _ => destruct H as [H | H]
      | H : In _ [] |- _ => destruct H
      | H : Call _ _ = Call _ _ |- _ =>
          first [ discriminate H | injection H as ?; subst ]
      end;
    try congruence.
  repeat split. intros [r' Hq]. clear - Hq. absent.
Qed.

(** X14. When the probe has answered, a negative camera index is refused
    like one that is too large: converted to an unsigned 32-bit value it
    is at least 2^31, above any sensor count up to 2^31. *)
Theorem negative_index_refused (this : MMALCamera) (h : HW)
  (r : Response) (info : MMAL_PARAMETER_CAMERA_INFO_T) :
  let x := get_sensor_info cameraName_size this h in
  In (Call probe_query r) (trace x) ->
  nonzero r = false ->
  filled r = Some (PCameraInfo info) ->
  - 2 ^ 31 <= cameraNum this < 0 ->
  num_cameras info <= 2 ^ 31 ->
  outcome x = Thrown "Camera number not found.".
Proof.
  cbv zeta. intros Hin Hr Hf Hn Hc.
  apply (get_sensor_info_probed cameraName_size this h r info Hin Hr Hf).
  unfold uint32.
  replace (cameraNum this mod 2 ^ 32) with (cameraNum this + 2 ^ 32); [lia |].
  apply Z.mod_unique with (q := -1); lia.
Qed.

(** X15. In every run [get_sensor_info] creates the probe as its first
    call.  The probe is destroyed exactly in the runs that return, and
    there once, as the last call. *)
Theorem probe_destroyed_iff_returned (this : MMALCamera) (h : HW) :
  let x := get_sensor_info cameraName_size this h in
  let destroy := mmal_component_destroy camera_info in
  (exists r, hd_error (trace x)
             = Some (Call (mmal_component_create camera_info) r))
  /\ ((exists r, In (Call destroy r) (trace x))
      <-> exists this', outcome x = Returned this')
  /\ (forall this', outcome x = Returned this' ->
      exists t r, trace x = t ++ [Call destroy r]
                  /\ ~ (exists r', In (Call destroy r') t)).
Proof.
  cbv zeta. unfold get_sensor_info.
  run_all;
    (split; [eexists; reflexivity |]);
    (split; [split |]);
    try (intros [r Hin]; absent; fail);
    try (intros [this' E]; discriminate E);
    try (intros this' E; discriminate E);
    try (intros _; eexists; reflexivity);
    try (intros _; eexists; cbn; eauto 8; fail).
  - intros this' _. eexists [_; _; _], _. split; [reflexivity |].
    intros [r' Hin]. absent.
  - intros this' _. eexists [_; _], _. split; [reflexivity |].
    intros [r' Hin]. absent.
Qed.

Lemma length_strncpy (src : list ascii) (n : nat) :
  List.length (strncpy src n) = n.
Proof.
  revert src. induction n as [| n IH]; intros src; [reflexivity |].
  rewrite strncpy_S. destruct src as [| c src]; cbn [List.length].
  - now rewrite IH.
  - destruct (Ascii.eqb c NUL); cbn [List.length]; now rewrite IH.
Qed.

Lemma length_terminate (buf : list ascii) :
  List.length (terminate buf) = List.length buf.
Proof.
  unfold terminate. destruct buf as [| c buf]; [reflexivity |].
  rewrite length_app.
  assert (Hne : c :: buf <> []) by discriminate.
  destruct (exists_last Hne) as (l & a & ->).
  rewrite removelast_last, length_app. reflexivity.
Qed.

Lemma last_terminate (buf : list ascii) (d : ascii) :
  buf <> [] -> last (terminate buf) d = NUL.
Proof.
  intros Hne. unfold terminate. destruct buf as [| c buf]; [congruence |].
  apply last_last.
Qed.

Lemma c_str_shorter (buf : list ascii) :
  In NUL buf -> (List.length (c_str buf) < List.length buf)%nat.
Proof.
  induction buf as [| c buf IH]; intros Hin; [destruct Hin |].
  cbn [c_str]. destruct (Ascii.eqb c NUL) eqn:E; cbn [List.length].
  - lia.
  - destruct Hin as [-> | Hin]; [now rewrite Ascii.eqb_refl in E |].
    specialize (IH Hin). lia.
Qed.

Lemma NUL_in_strncpy (src : list ascii) (n : nat) :
  In NUL (strncpy src n) <-> (List.length (c_str src) < n)%nat.
Proof.
  revert src. induction n as [| n IH]; intros src.
  - cbn. lia.
  - rewrite strncpy_S. destruct src as [| c src].
    + cbn. split; [lia | auto].
    + cbn [c_str]. destruct (Ascii.eqb c NUL) eqn:E.
      * cbn. split; [lia | auto].
      * cbn [In List.length]. rewrite IH. split.
        -- intros [-> | Hlt]; [now rewrite Ascii.eqb_refl in E | lia].
        -- intros Hlt. right. lia.
Qed.

(** X16. A [get_sensor_info] that returns leaves a name buffer of exactly
    [sizeof cameraName] bytes.  After the probe was queried the buffer
    ends in a terminator, so the name is shorter than the buffer; on the
    older firmware the default name is terminated only if the buffer has
    more than the six bytes of "OV5647". *)
Theorem name_buffer_after_probe (this this' : MMALCamera) (h : HW) :
  let x := get_sensor_info cameraName_size this h in
  outcome x = Returned this' ->
  List.length (cameraName this') = cameraName_size
  /\ ((exists r, In (Call probe_query r) (trace x)) ->
      (0 < cameraName_size)%nat ->
      last (cameraName this') NUL = NUL
      /\ (List.length (c_str (cameraName this')) < cameraName_size)%nat)
  /\ (~ (exists r, In (Call probe_query r) (trace x)) ->
      (In NUL (cameraName this') <-> (6 < cameraName_size)%nat)).
Proof.
  cbv zeta. unfold get_sensor_info, probe_query.
  run_all; intros Hret; try discriminate Hret; injection Hret as <-;
    cbn [cameraName set_cameraName set_size].
  - split; [now rewrite length_terminate, length_strncpy |]. split.
    + intros _ Hpos.
      assert (Hne : strncpy (camera_name m0) cameraName_size <> []).
      { intros E. apply (f_equal (@List.length ascii)) in E.
        rewrite length_strncpy in E. cbn in E. lia. }
      split; [now apply last_terminate |].
      assert (Hlen : List.length
                       (terminate (strncpy (camera_name m0) cameraName_size))
                     = cameraName_size)
        by now rewrite length_terminate, length_strncpy.
      assert (Hnul : In NUL (terminate
                               (strncpy (camera_name m0) cameraName_size))).
      { unfold terminate.
        destruct (strncpy (camera_name m0) cameraName_size) as [| c l];
          [congruence |].
        apply in_or_app. right. left. reflexivity. }
      apply c_str_shorter in Hnul. lia.
    + intros Hno. exfalso. apply Hno. eexists. cbn. eauto.
  - split; [apply length_strncpy |]. split.
    + intros [r Hin]. absent.
    + intros _. rewrite NUL_in_strncpy. reflexivity.
Qed.

End Probe.

(** ** More on construction *)

Section Built.

Context {HW : Type} `{MMAL HW}.
Variable cameraName_size : nat.

Lemma returned_bind {A B : Type} (m : M HW A) (k : A -> M HW B) h b :
  outcome (bind m k h) = Returned b ->
  exists a,
    outcome (k a (final (m h))) = Returned b
    /\ trace (bind m k h) = trace (m h) ++ trace (k a (final (m h))).
Proof.
  rewrite run_bind.
  destruct (outcome (m h)) as [a | what | | what]; cbn; try discriminate.
  intros E. exists a. auto.
Qed.

(** X17. The constructor sets three parameters only, the camera number,
    the sensor mode and the camera configuration, all on the control
    port; the only port it enables is the control port and the only
    component it destroys is the probe.  It never enables or disables the
    component, never disables a port and never raises the capture flag:
    construction starts no exposure, and undoes nothing if it throws. *)
Theorem ctor_only_configures (init : MMALCamera) (n : Z) (h : HW) :
  Forall construction_traffic
    (trace (MMALCamera_ctor cameraName_size init n h)).
Proof.
  revert h.
  change (emits_only construction_traffic
            (MMALCamera_ctor cameraName_size init n)).
  unfold MMALCamera_ctor, MMALComponent_ctor, enable_port_with_callback,
    get_sensor_info, set_capture_port_format.
  emits_by ltac:(intros; cbn; auto).
  all: cbn; intros;
    repeat match goal with
      | E : (if ?b then None else Some _) = Some _ |- _ =>
          destruct b; [discriminate E | injection E as <-]
      end; auto.
Qed.

(** X18. The control port is enabled only as the fourth call of a
    constructor, after the component was created, the camera selected and
    the sensor mode set, each with success, and only for a component that
    reports at least one output port. *)
Theorem control_port_enabled_after_selection (init : MMALCamera) (n : Z)
  (h : HW) (r : Response) :
  let x := MMALCamera_ctor cameraName_size init n h in
  let create := mmal_component_create camera in
  let select := mmal_port_parameter_set (control camera)
                  MMAL_PARAMETER_CAMERA_NUM (PInt32 n) in
  let mode := mmal_port_parameter_set_uint32 (control camera)
                MMAL_PARAMETER_CAMERA_CUSTOM_SENSOR_CONFIG 0 in
  In (Call (mmal_port_enable (control camera)) r) (trace x) ->
  exists r1 r2 r3 rest,
    trace x = Call create r1 :: Call select r2 :: Call mode r3
              :: Call (mmal_port_enable (control camera)) r :: rest
    /\ nonzero r1 = false /\ nonzero r2 = false /\ nonzero r3 = false
    /\ output_num (fst (mmal_call (fst (mmal_call h create)) select)) camera
       <> 0.
Proof.
  cbv zeta.
  unfold MMALCamera_ctor, MMALComponent_ctor, enable_port_with_callback.
  cbn [cameraNum set_cameraNum].
  rewrite bind_assoc, run_call, run_throw_if.
  destruct (nonzero (snd (mmal_call h _))) eqn:E1;
    cbn [trace outcome fst snd]; [intros Hin; absent |].
  rewrite run_call, run_throw_if.
  destruct (nonzero (snd (mmal_call _ (mmal_port_parameter_set _ _ _))))
    eqn:E2; cbn [trace outcome fst snd]; [intros Hin; absent |].
  rewrite run_read, run_throw_if.
  destruct (output_num _ camera =? 0) eqn:E0;
    cbn [trace outcome fst snd]; [intros Hin; absent |].
  rewrite run_call, run_throw_if.
  destruct (nonzero (snd (mmal_call _ (mmal_port_parameter_set_uint32 _ _ _))))
    eqn:E3; cbn [trace outcome fst snd]; [intros Hin; absent |].
  rewrite bind_assoc, run_call, run_throw_if.
  apply Z.eqb_neq in E0.
  destruct (nonzero (snd (mmal_call _ (mmal_port_enable _)))) eqn:E4;
    cbn [trace outcome fst snd].
  - intros [E | [E | [E | [E | []]]]]; try discriminate E.
    injection E as <-. do 4 eexists. split; [reflexivity | auto].
  - match goal with
    | |- In _ (_ :: _ :: _ :: _ :: trace (?m ?h')) -> _ =>
        assert (Hrest : emits_only
                  (fun e => forall p r', e <> Call (mmal_port_enable p) r') m)
    end.
    { unfold get_sensor_info, set_capture_port_format.
      emits_by ltac:(intros; discriminate). }
    intros [E | [E | [E | [E | Hin]]]]; try discriminate E.
    + injection E as <-. do 4 eexists. split; [reflexivity | auto].
    + exfalso.
      exact (emits_only_in _ _ _ _ Hrest Hin (control camera) r eq_refl).
Qed.

End Built.

Section BuiltSize.

Context {HW : Type} `{MMAL HW}.
Variable cameraName_size : nat.

Lemma returns_only_bind_with {A B : Type} (Rm : A -> Prop) (R : B -> Prop)
  (m : M HW A) (k : A -> M HW B) :
  returns_only Rm m -> (forall a, Rm a -> returns_only R (k a)) ->
  returns_only R (bind m k).
Proof.
  intros Hm Hk h b. rewrite run_bind.
  destruct (outcome (m h)) as [a | what | | what] eqn:E; cbn; try discriminate.
  apply Hk. eapply Hm. eassumption.
Qed.

Lemma trace_call (c : MMALCall) (h : HW) :
  trace (call c h) = [Call c (snd (mmal_call h c))].
Proof. unfold call, trace. now destruct (mmal_call h c). Qed.

Lemma format_commit_sizes (this : MMALCamera) (h : HW) :
  exists fmt r,
    In (Call (mmal_port_format_commit
                (output camera MMAL_CAMERA_CAPTURE_PORT) fmt) r)
       (trace (set_capture_port_format this h))
    /\ video_width fmt = width this
    /\ video_height fmt = height this.
Proof.
  unfold set_capture_port_format.
  rewrite run_read, run_call. unfold bind, call, throw_if.
  destruct (mmal_call _ (mmal_port_format_commit _ _)) as [h2 r2].
  do 2 eexists. split.
  - destruct (nonzero r2); cbn; right; left; reflexivity.
  - split; reflexivity.
Qed.

(** X19. A constructor that returns has configured the camera and
    committed the capture format for the size it reports: the maximum
    stills size of the camera configuration and the frame size of the
    committed format are the width and height of the object, in one-shot
    mode with a preview of 1024 x 768.  The object has the index it was
    asked for, and the shutter speed, gain and ISO it had before. *)
Theorem built_size_is_configured (init built : MMALCamera) (n : Z) (h : HW) :
  let x := MMALCamera_ctor cameraName_size init n h in
  outcome x = Returned built ->
  exists cfg r fmt r',
    In (Call (mmal_port_parameter_set (control camera)
                MMAL_PARAMETER_CAMERA_CONFIG (PCameraConfig cfg)) r) (trace x)
    /\ In (Call (mmal_port_format_commit
                   (output camera MMAL_CAMERA_CAPTURE_PORT) fmt) r') (trace x)
    /\ (max_stills_w cfg, max_stills_h cfg) = (width built, height built)
    /\ (video_width fmt, video_height fmt) = (width built, height built)
    /\ one_shot_stills cfg = 1
    /\ (max_preview_video_w cfg, max_preview_video_h cfg) = (1024, 768)
    /\ cameraNum built = n
    /\ (shutter_speed built, gain built, iso built)
       = (shutter_speed init, gain init, iso init).
Proof.
  cbv zeta. intros Hret.
  assert (Hkeep : returns_only
            (fun this => cameraNum this = n
                         /\ shutter_speed this = shutter_speed init
                         /\ gain this = gain init /\ iso this = iso init)
            (get_sensor_info cameraName_size (set_cameraNum n init))).
  { unfold get_sensor_info.
    do 2 (apply returns_only_bind; intros ?).
    apply returns_only_bind_with
      with (Rm := fun this => cameraNum this = n
                              /\ shutter_speed this = shutter_speed init
                              /\ gain this = gain init /\ iso this = iso init).
    - match goal with
      | |- returns_only _ (if ?b then _ else _) => destruct b
      end;
        repeat (apply returns_only_bind; intros ?);
        apply returns_only_ret; cbn; auto.
    - intros this Hthis. repeat (apply returns_only_bind; intros ?).
      now apply returns_only_ret. }
  unfold MMALCamera_ctor in *.
  repeat match type of Hret with
    | outcome (bind ?m _ _) = _ =>
        lazymatch m with
        | get_sensor_info _ _ => fail
        | _ =>
            apply returned_bind in Hret;
            destruct Hret as (? & Hret & ->); cbv beta in Hret
        end
    end.
  rewrite run_bind in Hret. rewrite run_bind.
  destruct (outcome (get_sensor_info _ _ _)) as [this1 | | |] eqn:Eg;
    try discriminate Hret.
  apply Hkeep in Eg. destruct Eg as (En & Es & Egain & Eiso).
  cbn [outcome trace fst snd] in *.
  repeat (apply returned_bind in Hret;
          destruct Hret as (? & Hret & ->); cbv beta in Hret).
  cbn in Hret. injection Hret as <-.
  match goal with
  | |- context [trace (set_capture_port_format ?t ?hh)] =>
      destruct (format_commit_sizes t hh) as (fmt & r' & Hin & Ew & Eh)
  end.
  eexists _, _, fmt, r'. split; [| split].
  - do 9 (apply in_or_app; right). apply in_or_app. left.
    rewrite trace_call. left. reflexivity.
  - do 11 (apply in_or_app; right). apply in_or_app. left. exact Hin.
  - cbn. rewrite Ew, Eh, En, Es, Egain, Eiso. repeat split.
Qed.

End BuiltSize.

(** ** The further properties on the bench *)

(** X4 on the bench: 2000000 microseconds requested, 2050000 read back. *)
Lemma shutter_warning_in_range_bench :
  let this := members 2000000 double_1 in
  let h := bench (reads_back 2050000) in
  outcome (set_camera_parameters false this h) = Returned tt
  /\ 100000 <= shutter_speed this <= 2 ^ 32 - 1 - 100000
  /\ exists r actual,
       In (Call (mmal_port_parameter_get_uint32 (control camera)
                   MMAL_PARAMETER_SHUTTER_SPEED) r)
          (trace (set_camera_parameters false this h))
       /\ filled r = Some (PUint32 actual).
Proof.
  cbv zeta.
  assert (Hret : outcome (set_camera_parameters false
                            (members 2000000 double_1)
                            (bench (reads_back 2050000))) = Returned tt)
    by (vm_compute; reflexivity).
  assert (Hs : 100000 <= shutter_speed (members 2000000 double_1)
               <= 2 ^ 32 - 1 - 100000) by (cbn; lia).
  split; [exact Hret |]. split; [exact Hs |].
  destruct (shutter_warning_in_range false _ _ Hret Hs)
    as (r & actual & Hin & Hf & _).
  exists r, actual. split; assumption.
Defined.

(** X5 on the bench: 50000 microseconds requested and read back. *)
Lemma shutter_warning_below_range_bench :
  let this := members 50000 double_1 in
  let h := bench (reads_back 50000) in
  outcome (set_camera_parameters false this h) = Returned tt
  /\ 0 <= shutter_speed this < 100000
  /\ exists r actual,
       In (Call (mmal_port_parameter_get_uint32 (control camera)
                   MMAL_PARAMETER_SHUTTER_SPEED) r)
          (trace (set_camera_parameters false this h))
       /\ filled r = Some (PUint32 actual).
Proof.
  cbv zeta.
  assert (Hret : outcome (set_camera_parameters false
                            (members 50000 double_1)
                            (bench (reads_back 50000))) = Returned tt)
    by (vm_compute; reflexivity).
  assert (Hs : 0 <= shutter_speed (members 50000 double_1) < 100000)
    by (cbn; lia).
  split; [exact Hret |]. split; [exact Hs |].
  destruct (shutter_warning_below_range false _ _ Hret Hs)
    as (r & actual & Hin & Hf & _).
  exists r, actual. split; assumption.
Defined.

(** X6 on the bench: a firmware that reads an FPS range of 1/1 to 30/1
    back, whatever was set. *)
Lemma fps_warning_on_return_bench :
  let this := members 2000000 double_1 in
  let h := bench (firmware one_camera 2000000) in
  outcome (set_camera_parameters false this h) = Returned tt
  /\ exists lo hi,
       In (Stderr (msg_fps_mismatch lo hi))
          (trace (set_camera_parameters false this h))
       <-> (lo, hi) <> exposure_range this.
Proof.
  cbv zeta.
  assert (Hret : outcome (set_camera_parameters false
                            (members 2000000 double_1)
                            (bench (firmware one_camera 2000000)))
                 = Returned tt)
    by (vm_compute; reflexivity).
  split; [exact Hret |].
  destruct (fps_warning_on_return false _ _ Hret)
    as (r & lo & hi & _ & _ & Hiff & _).
  exists lo, hi. now rewrite (surjective_pairing (exposure_range _)).
Defined.

(** X7 on the bench. *)
Lemma parameters_in_order_bench :
  let this := members 2000000 double_2 in
  let h := bench (reads_back 2000000) in
  outcome (set_camera_parameters true this h) = Returned tt
  /\ exists n r,
       In (Call (mmal_port_parameter_set_rational (control camera)
                   MMAL_PARAMETER_ANALOG_GAIN
                   {| num := n; den := 65536 |}) r)
          (trace (set_camera_parameters true this h)).
Proof.
  cbv zeta.
  assert (Hret : outcome (set_camera_parameters true
                            (members 2000000 double_2)
                            (bench (reads_back 2000000))) = Returned tt)
    by (vm_compute; reflexivity).
  split; [exact Hret |].
  destruct (parameters_in_order true _ _ Hret)
    as (before & r1 & r2 & between & r3 & r4 & after & n & r5 & Ht & _).
  exists n, r5. rewrite Ht.
  apply in_or_app. right. do 2 right.
  apply in_or_app. right. do 2 right.
  apply in_or_app. right. left. reflexivity.
Defined.

(** X8 on the bench: the gain 2.0. *)
Lemma gain_is_within_one_step_bench :
  gain_in_range double_2
  /\ double_to_int32 (double_mul double_2 double_65536) = Some 131072
  /\ (inject_Z 131072 / 65536 <= SF2Q double_2)%Q.
Proof.
  assert (Hg : gain_in_range double_2).
  { split; [| split]; vm_compute; reflexivity. }
  assert (Hn : double_to_int32 (double_mul double_2 double_65536)
               = Some 131072) by (vm_compute; reflexivity).
  split; [exact Hg |]. split; [exact Hn |].
  apply (gain_is_within_one_step double_2 131072 Hg Hn).
Defined.

(** X13 on the bench: a firmware that accepts every query. *)
Lemma older_firmware_defaults_bench :
  let x := get_sensor_info 16 (set_cameraNum 3 (members 100000 double_1))
             (bench every_call_succeeds) in
  exists this',
    outcome x = Returned this'
    /\ width this' = 2592 /\ height this' = 1944
    /\ c_str (cameraName this') = OV5647.
Proof.
  cbv zeta. eexists. split; [vm_compute; reflexivity |].
  match goal with
  | |- width ?t = _ /\ _ =>
      destruct (older_firmware_defaults 16
                  (set_cameraNum 3 (members 100000 double_1)) t
                  (bench every_call_succeeds) success)
        as (Hw & Hh & Hname & _)
  end.
  - vm_compute. reflexivity.
  - vm_compute. right. left. reflexivity.
  - reflexivity.
  - split; [exact Hw |]. split; [exact Hh |]. rewrite Hname. reflexivity.
Defined.

(** X14 on the bench: the index -1 against one probed sensor. *)
Lemma negative_index_refused_bench :
  let this := set_cameraNum (-1) (members 100000 double_1) in
  let h := bench (firmware one_camera 100000) in
  In (Call probe_query (gives (PCameraInfo one_camera)))
     (trace (get_sensor_info 16 this h))
  /\ outcome (get_sensor_info 16 this h) = Thrown "Camera number not found.".
Proof.
  cbv zeta.
  assert (Hin : In (Call probe_query (gives (PCameraInfo one_camera)))
                  (trace (get_sensor_info 16
                            (set_cameraNum (-1) (members 100000 double_1))
                            (bench (firmware one_camera 100000))))).
  { vm_compute. repeat (first [left; reflexivity | right]). }
  split; [exact Hin |].
  apply (negative_index_refused 16 _ _ _ one_camera Hin eq_refl eq_refl).
  - cbn. lia.
  - cbn. lia.
Defined.

(** X16 on the bench: the IMX477 in a buffer of 16 bytes. *)
Lemma name_buffer_after_probe_bench :
  let x := get_sensor_info 16 (members 100000 double_1)
             (bench (firmware one_camera 100000)) in
  exists this',
    outcome x = Returned this'
    /\ List.length (cameraName this') = 16%nat.
Proof.
  cbv zeta. eexists. split; [vm_compute; reflexivity |].
  match goal with
  | |- List.length (cameraName ?t) = _ =>
      destruct (name_buffer_after_probe 16 (members 100000 double_1) t
                  (bench (firmware one_camera 100000)))
        as (Hlen & _)
  end.
  - vm_compute. reflexivity.
  - exact Hlen.
Defined.

(** X18 on the bench. *)
Lemma control_port_enabled_after_selection_bench :
  let x := MMALCamera_ctor 16 (members 100000 double_1) 0
             (bench (firmware one_camera 100000)) in
  In (Call (mmal_port_enable (control camera)) success) (trace x)
  /\ exists r1 r2 r3,
       nonzero r1 = false /\ nonzero r2 = false /\ nonzero r3 = false.
Proof.
  cbv zeta.
  assert (Hin : In (Call (mmal_port_enable (control camera)) success)
                  (trace (MMALCamera_ctor 16 (members 100000 double_1) 0
                            (bench (firmware one_camera 100000))))).
  { vm_compute. repeat (first [left; reflexivity | right]). }
  split; [exact Hin |].
  destruct (control_port_enabled_after_selection 16
              (members 100000 double_1) 0
              (bench (firmware one_camera 100000)) success Hin)
    as (r1 & r2 & r3 & rest & _ & H1 & H2 & H3 & _).
  exists r1, r2, r3. exact (conj H1 (conj H2 H3)).
Defined.

(** X19 on the bench: the IMX477 as camera 0. *)
Lemma built_size_is_configured_bench :
  let x := MMALCamera_ctor 16 (members 100000 double_1) 0
             (bench (firmware one_camera 100000)) in
  exists built cfg fmt,
    outcome x = Returned built
    /\ (max_stills_w cfg, max_stills_h cfg) = (width built, height built)
    /\ (video_width fmt, video_height fmt) = (width built, height built).
Proof.
  cbv zeta. eexists.
  match goal with
  | |- exists cfg fmt, outcome ?x = Returned ?b /\ _ =>
      assert (Hret : outcome x = Returned b) by (vm_compute; reflexivity)
  end.
  destruct (built_size_is_configured 16 _ _ _ _ Hret)
    as (cfg & r & fmt & r' & _ & _ & Hc & Hf & _).
  exists cfg, fmt. split; [exact Hret |]. split; assumption.
Defined.
